(** * backend/users.py: user registration, invites and token configuration

    A shallow embedding of [backend/users.py] (the FastAPI user handling of
    browsertrix-cloud, built on fastapi-users) and the properties of its
    registration flow.

    The module talks to collaborators that live elsewhere: the invite
    operations ([invites.py]), the archive operations, the e-mail sender and
    the [BaseUserManager] that [UserManager] inherits from.  They are taken
    as records of functions over an arbitrary world [W]; every call the code
    makes to one of them, every [print] and every [asyncio.create_task] is
    written to a chronological log, so that what the code did, and in which
    order, can be read off the result of a run. *)

From Stdlib Require Import ZArith String Ascii List Bool Lia.
From stdpp Require Import base option list strings gmap.

Local Open Scope string_scope.
Local Open Scope Z_scope.
Local Open Scope list_scope.

(** ** Python values *)

(** Exceptions, as far as [users.py] tells them apart: the only handler in
    the module is [except HTTPException]. *)
Inductive exn : Type :=
| HTTPException (status_code : Z) (detail : string)
| OtherException (type_name : string).

Inductive result (A : Type) : Type :=
| Ok (a : A)
| Raise (e : exn).
Arguments Ok {A} a.
Arguments Raise {A} e.

Definition is_HTTPException (e : exn) : bool :=
  match e with HTTPException _ _ => true | OtherException _ => false end.

(** Values stored in the dict handed to [_update]. *)
Inductive pyval : Type :=
| PyBool (b : bool)
| PyStr (s : string).

(** Truth value of an [Optional[str]]: [None] and the empty string are
    false. *)
Definition truthy (o : option string) : bool :=
  match o with
  | Some s => negb (String.eqb s "")
  | None => false
  end.

(** [a or b] for an [Optional[str]] [a] and a [str] [b]. *)
Definition str_or (a : option string) (b : string) : string :=
  match a with
  | Some s => if String.eqb s "" then b else s
  | None => b
  end.

(** [int(s)] for a [str], in base 10.  [None] stands for [ValueError].

    A [string] here is the text as bytes, and a text of bytes below 128
    only is an ASCII [str].  On such a text CPython drops the blanks of
    the C locale around the numeral, accepts one sign, and reads digits
    that may be grouped with single underscores; a numeral of more than
    640 digits is refused when it has more digits than
    [sys.get_int_max_str_digits()], unless that limit is 0.  A text with
    characters outside ASCII is read with the digits and blanks of the
    interpreter's Unicode database, which is taken as a parameter. *)
Definition is_space (c : ascii) : bool :=
  let n := nat_of_ascii c in
  (((9 <=? n) && (n <=? 13)) || (n =? 32))%nat.

Definition digit_val (c : ascii) : option Z :=
  let n := Z.of_nat (nat_of_ascii c) in
  if ((48 <=? n) && (n <=? 57))%Z then Some (n - 48) else None.

Fixpoint lstrip (l : list ascii) : list ascii :=
  match l with
  | c :: l' => if is_space c then lstrip l' else l
  | [] => []
  end.

Definition strip (l : list ascii) : list ascii :=
  rev (lstrip (rev (lstrip l))).

(** The value of the numeral and the number of its digits. *)
Fixpoint parse_digits (acc : Z) (digits : nat) (after_digit : bool)
    (l : list ascii) : option (Z * nat) :=
  match l with
  | [] => if after_digit then Some (acc, digits) else None
  | c :: l' =>
      match digit_val c with
      | Some d => parse_digits (10 * acc + d) (S digits) true l'
      | None =>
          if Ascii.eqb c "_" && after_digit
          then parse_digits acc digits false l'
          else None
      end
  end.

Definition exceeds_limit (max_str_digits digits : nat) : bool :=
  ((640 <? digits) && (0 <? max_str_digits) && (max_str_digits <? digits))%nat.

Definition is_ascii_text (s : string) : bool :=
  forallb (fun c => (nat_of_ascii c <? 128)%nat) (list_ascii_of_string s).

Definition int_of_ascii (max_str_digits : nat) (s : string) : option Z :=
  match strip (list_ascii_of_string s) with
  | c :: l =>
      let negative := Ascii.eqb c "-" in
      let numeral := if negative || Ascii.eqb c "+" then l else c :: l in
      match parse_digits 0 0 false numeral with
      | Some (n, digits) =>
          if exceeds_limit max_str_digits digits then None
          else Some (if negative then - n else n)
      | None => None
      end
  | [] => None
  end.

Definition py_int (max_str_digits : nat) (non_ascii : string -> option Z)
    (s : string) : option Z :=
  if is_ascii_text s then int_of_ascii max_str_digits s else non_ascii s.

(** The character of a decimal digit. *)
Definition digit_char (d : nat) : ascii := ascii_of_nat (48 + d).

(** ** Module globals *)

(** What the module reads when it is imported: the process environment,
    and the value [uuid.uuid4().hex] yields on that one evaluation; and,
    of the interpreter it runs in, [sys.get_int_max_str_digits()] (4300
    unless set otherwise, 0 where there is no limit) and how [int] reads a
    text with characters outside ASCII. *)
Record Process : Type := {
  environ : gmap string string;
  uuid4_hex : string;
  int_max_str_digits : nat;
  int_non_ascii : string -> option Z
}.

Record Globals : Type := {
  PASSWORD_SECRET : string;
  JWT_TOKEN_LIFETIME : Z
}.

(** The two module-level assignments, run once at import.  The default of
    [JWT_TOKEN_LIFETIME_MINUTES] is the integer 60, which [int] returns as
    it is. *)
Definition import_users (p : Process) : result Globals :=
  let secret := default (uuid4_hex p) (environ p !! "PASSWORD_SECRET") in
  match environ p !! "JWT_TOKEN_LIFETIME_MINUTES" with
  | None =>
      Ok {| PASSWORD_SECRET := secret; JWT_TOKEN_LIFETIME := 60 * 60 |}
  | Some s =>
      match py_int (int_max_str_digits p) (int_non_ascii p) s with
      | Some minutes =>
          Ok {| PASSWORD_SECRET := secret; JWT_TOKEN_LIFETIME := minutes * 60 |}
      | None => Raise (OtherException "ValueError")
      end
  end.

(** fastapi-users' [JWTAuthentication] backend, as configured. *)
Record JWTAuthentication : Type := {
  secret : string;
  lifetime_seconds : Z;
  tokenUrl : string
}.

(** ** Models *)

(** Modelled from the spec: [InvitePending], which [users.py] imports from
    [invites.py]; the fields are those of the spec's InviteRecord. *)
Inductive InviteScope : Type :=
| new_account
| existing_account_link (resource_id : string).

Record InvitePending : Type := {
  invite_token : string;
  issuer : option string;
  scope : InviteScope;
  created : Z;
  expiry : option Z
}.

(** [InviteRequest] (also from [invites.py]) is only passed through. *)
Record InviteRequest : Type := { invite_email : string }.

(** The starlette [Request]; the module only passes it on. *)
Record Request : Type := { request_id : nat }.

Module UserCreate.
Record t : Type := {
  email : string;
  password : string;
  name : option string;
  inviteToken : option string;
  newArchive : bool;
  newArchiveName : option string
}.

Definition set_name (u : t) (n : option string) : t :=
  {| email := email u; password := password u; name := n;
     inviteToken := inviteToken u; newArchive := newArchive u;
     newArchiveName := newArchiveName u |}.
End UserCreate.

Module UserDB.
Record t : Type := {
  id : string;
  email : string;
  hashed_password : string;
  is_active : bool;
  is_superuser : bool;
  is_verified : bool;
  name : option string;
  invites : gmap string InvitePending
}.
End UserDB.

(** ** The log of a run *)

Inductive Printed : Type :=
| Line (s : string)
| Exc (e : exn).

Inductive Task : Type :=
| TRequestVerify (user : UserDB.t) (request : option Request).

(** A call to a collaborator, with its arguments and what it answered. *)
Inductive Event : Type :=
| EGetValidInvite (token : string) (user : UserCreate.t)
    (r : result (option InvitePending))
| EInviteUser (invite : InviteRequest) (user : UserDB.t)
    (archive : option string) (allow_existing : bool) (r : result unit)
| ESuperCreate (user : UserCreate.t) (safe : bool) (request : option Request)
    (r : result UserDB.t)
| EUpdate (user : UserDB.t) (update_dict : gmap string pyval)
    (r : result UserDB.t)
| EVerifyToken (user : UserDB.t) (r : result string)
| ECreateNewArchive (archive_name storage_name : string) (user : UserDB.t)
    (r : result unit)
| EHandleNewUserInvite (token : string) (user : UserDB.t) (r : result unit)
| ESendUserValidation (email token : string) (r : result unit)
| ESendUserForgotPassword (email token : string) (r : result unit).

Inductive Item : Type :=
| Call (e : Event)
| Print (p : Printed)
| CreateTask (t : Task).

Definition stdout (log : list Item) : list Printed :=
  omap (fun it => match it with Print p => Some p | _ => None end) log.

Definition scheduled (log : list Item) : list Task :=
  omap (fun it => match it with CreateTask t => Some t | _ => None end) log.

Definition calls (log : list Item) : list Event :=
  omap (fun it => match it with Call e => Some e | _ => None end) log.

(** The calls that belong to PostProcessing: archive provisioning, invite
    fulfilment, the verified update, and anything on the e-mail path. *)
Definition is_postprocessing (it : Item) : bool :=
  match it with
  | Call (EGetValidInvite _ _ _) => false
  | Call (ESuperCreate _ _ _ _) => false
  | Call (EInviteUser _ _ _ _ _) => false
  | _ => true
  end.

(** What follows the archive step in PostProcessing: invite fulfilment and
    its report, the verified update, or the scheduled verification. *)
Definition after_archive_step (it : Item) : bool :=
  match it with
  | Call (EHandleNewUserInvite _ _ _) => true
  | Call (EUpdate _ _ _) => true
  | Print (Exc _) => true
  | CreateTask _ => true
  | _ => false
  end.

(** What the handler around invite fulfilment prints for an answer. *)
Definition printed_exc (r : result unit) : list Item :=
  match r with
  | Raise e => [Print (Exc e)]
  | Ok _ => []
  end.

(** A call on the e-mail verification path: issuing the token or handing it
    to the e-mail sender. *)
Definition is_email_call (it : Item) : bool :=
  match it with
  | Call (EVerifyToken _ _) => true
  | Call (ESendUserValidation _ _ _) => true
  | Call (ESendUserForgotPassword _ _ _) => true
  | _ => false
  end.

Section Users.

Context {W : Type}.

(** ** Collaborators *)

(** [invites.py]: the invite operations object held in [self.invites]. *)
Record InviteOps : Type := {
  get_valid_invite :
    string -> UserCreate.t -> W -> result (option InvitePending) * W;
  invite_user_op :
    InviteRequest -> UserDB.t -> option string -> bool -> W -> result unit * W
}.

(** The archive operations object, wired in by [set_archive_ops]. *)
Record ArchiveOps : Type := {
  create_new_archive_for_user :
    string -> string -> UserDB.t -> W -> result unit * W;
  handle_new_user_invite : string -> UserDB.t -> W -> result unit * W
}.

Record EmailSender : Type := {
  send_user_validation : string -> string -> W -> result unit * W;
  send_user_forgot_password : string -> string -> W -> result unit * W
}.

(** What [UserManager] inherits from fastapi-users' [BaseUserManager]:
    [create] (reached through [super().create]), [_update], and the part of
    [request_verify] that checks the account and issues the token before the
    [on_after_request_verify] hook runs. *)
Record BaseUserManager : Type := {
  super_create :
    UserCreate.t -> bool -> option Request -> W -> result UserDB.t * W;
  _update : UserDB.t -> gmap string pyval -> W -> result UserDB.t * W;
  verify_token : UserDB.t -> W -> result string * W
}.

(** ** The effect monad: world passing, exceptions, and the log *)

Definition M (A : Type) : Type := W -> result A * W * list Item.

Definition ret {A} (a : A) : M A := fun w => (Ok a, w, []).

Definition raise {A} (e : exn) : M A := fun w => (Raise e, w, []).

Definition bind {A B} (m : M A) (k : A -> M B) : M B := fun w =>
  match m w with
  | (Ok a, w1, l1) => let '(r, w2, l2) := k a w1 in (r, w2, l1 ++ l2)
  | (Raise e, w1, l1) => (Raise e, w1, l1)
  end.

Notation "x <- c1 ;; c2" := (bind c1 (fun x => c2))
  (at level 100, c1 at next level, right associativity).
Notation "c1 ;; c2" := (bind c1 (fun _ => c2))
  (at level 100, right associativity).

(** [try: m except HTTPException as exc: h exc] *)
Definition try_except_HTTPException {A} (m : M A) (h : exn -> M A) : M A :=
  fun w =>
    match m w with
    | (Raise (HTTPException c d), w1, l1) =>
        let '(r, w2, l2) := h (HTTPException c d) w1 in (r, w2, l1 ++ l2)
    | other => other
    end.

(** An awaited call to a collaborator. *)
Definition call {A} (ev : result A -> Event) (f : W -> result A * W) : M A :=
  fun w => let '(r, w1) := f w in (r, w1, [Call (ev r)]).

Definition print (p : Printed) : M unit := fun w => (Ok tt, w, [Print p]).

(** [asyncio.create_task]: the coroutine is handed to the event loop and
    the caller goes on without awaiting it. *)
Definition create_task (t : Task) : M unit :=
  fun w => (Ok tt, w, [CreateTask t]).

Definition lift {A} (r : result A) : M A := fun w => (r, w, []).

(** ** UserManager *)

Record UserManager : Type := {
  base : BaseUserManager;
  reset_password_token_secret : string;
  verification_token_secret : string;
  email : EmailSender;
  invites : InviteOps;
  archive_ops : option ArchiveOps;
  registration_enabled : bool
}.

Definition set_archive_ops (self : UserManager) (ops : ArchiveOps)
  : UserManager :=
  {| base := base self;
     reset_password_token_secret := reset_password_token_secret self;
     verification_token_secret := verification_token_secret self;
     email := email self;
     invites := invites self;
     archive_ops := Some ops;
     registration_enabled := registration_enabled self |}.

(** [UserManager.__init__] with the class attributes, as
    [init_user_manager] calls it. *)
Definition init_user_manager (g : Globals) (p : Process)
    (user_db : BaseUserManager) (emailsender : EmailSender)
    (invites : InviteOps) : UserManager :=
  {| base := user_db;
     reset_password_token_secret := PASSWORD_SECRET g;
     verification_token_secret := PASSWORD_SECRET g;
     email := emailsender;
     invites := invites;
     archive_ops := None;
     registration_enabled :=
       bool_decide (environ p !! "REGISTRATION_ENABLED" = Some "1") |}.

(** The authentication backend [init_users_api] builds. *)
Definition jwt_authentication (g : Globals) : JWTAuthentication :=
  {| secret := PASSWORD_SECRET g;
     lifetime_seconds := JWT_TOKEN_LIFETIME g;
     tokenUrl := "auth/jwt/login" |}.


(** Reading an attribute of [self.archive_ops], which is [None] until
    [set_archive_ops] has run. *)
Definition get_archive_ops (self : UserManager) : M ArchiveOps :=
  match archive_ops self with
  | Some ops => ret ops
  | None => raise (OtherException "AttributeError")
  end.

(** The name a new archive gets when the request leaves it blank. *)
Definition default_archive_name (user : UserDB.t) : string :=
  str_or (UserDB.name user) (UserDB.email user) +:+ "'s Archive".

(** custom post registration callback, also receive the UserCreate object.

    [user] is a Python object, and [_update] assigns the fields it is given
    on that very object before it stores it: the answer of [_update] is the
    object as the call left it.  The callback itself returns nothing; its
    result here is the state of [user] at its end, which is what the
    caller's [created_user] then reads as. *)
Definition on_after_register_custom (self : UserManager) (user : UserDB.t)
    (user_create : UserCreate.t) (request : option Request) : M UserDB.t :=
  print (Line ("User " +:+ UserDB.id user +:+ " has registered.")) ;;
  (if UserCreate.newArchive user_create then
     print (Line ("Creating new archive for " +:+ UserDB.id user)) ;;
     let archive_name :=
       str_or (UserCreate.newArchiveName user_create)
              (default_archive_name user) in
     ops <- get_archive_ops self ;;
     call (ECreateNewArchive archive_name "default" user)
          (create_new_archive_for_user ops archive_name "default" user)
   else ret tt) ;;
  match UserCreate.inviteToken user_create with
  | Some token =>
      if String.eqb token "" then
        create_task (TRequestVerify user request) ;;
        ret user
      else
        try_except_HTTPException
          (ops <- get_archive_ops self ;;
           call (EHandleNewUserInvite token user)
                (handle_new_user_invite ops token user))
          (fun exc => print (Exc exc)) ;;
        (* if user has been invited, mark as verified immediately *)
        call (EUpdate user {[ "is_verified" := PyBool true ]})
             (_update (base self) user {[ "is_verified" := PyBool true ]})
  | None =>
      create_task (TRequestVerify user request) ;;
      ret user
  end.

(** [user.name = user.name or user.email] *)
Definition default_name (user : UserCreate.t) : UserCreate.t :=
  UserCreate.set_name user
    (Some (str_or (UserCreate.name user) (UserCreate.email user))).

Definition create (self : UserManager) (user : UserCreate.t) (safe : bool)
    (request : option Request) : M UserDB.t :=
  let user := default_name user in
  (* if open registration not enabled, can only register with an invite *)
  if negb (registration_enabled self)
     && negb (truthy (UserCreate.inviteToken user)) then
    raise (HTTPException 400 "Invite Token Required")
  else
    invalid <-
      match UserCreate.inviteToken user with
      | Some token =>
          if String.eqb token "" then ret false
          else
            invite <- call (EGetValidInvite token user)
                           (get_valid_invite (invites self) token user) ;;
            ret (negb (bool_decide (is_Some invite)))
      | None => ret false
      end ;;
    if (invalid : bool) then
      raise (HTTPException 400 "Invalid Invite Token")
    else
      created_user <- call (ESuperCreate user safe request)
                           (super_create (base self) user safe request) ;;
      created_user <-
        on_after_register_custom self created_user user request ;;
      ret created_user.

(** callback after password forgot *)
Definition on_after_forgot_password (self : UserManager) (user : UserDB.t)
    (token : string) (request : option Request) : M unit :=
  print (Line ("User " +:+ UserDB.id user
               +:+ " has forgot their password. Reset token: " +:+ token)) ;;
  call (ESendUserForgotPassword (UserDB.email user) token)
       (send_user_forgot_password (email self) (UserDB.email user) token).

(** callback after verification request *)
Definition on_after_request_verify (self : UserManager) (user : UserDB.t)
    (token : string) (request : option Request) : M unit :=
  call (ESendUserValidation (UserDB.email user) token)
       (send_user_validation (email self) (UserDB.email user) token).

(** [request_verify] is inherited: it checks the account, issues the
    verification token and then runs the [on_after_request_verify] hook. *)
Definition request_verify (self : UserManager) (user : UserDB.t)
    (request : option Request) : M unit :=
  token <- call (EVerifyToken user) (verify_token (base self) user) ;;
  on_after_request_verify self user token request.

(** ** The event loop *)

(** A scheduled task runs on its own; nobody awaits it, so what it returns
    or raises reaches no caller. *)
Definition run_task (self : UserManager) (t : Task) : W -> W * list Item :=
  fun w =>
    match t with
    | TRequestVerify user request =>
        let '(_, w1, l) := request_verify self user request w in (w1, l)
    end.

Fixpoint run_tasks (self : UserManager) (ts : list Task) (w : W)
  : W * list Item :=
  match ts with
  | [] => (w, [])
  | t :: ts' =>
      let '(w1, l1) := run_task self t w in
      let '(w2, l2) := run_tasks self ts' w1 in
      (w2, l1 ++ l2)
  end.

(** One registration request as the event loop sees it: [create] runs to
    its end and yields the response; the tasks it scheduled run after it. *)
Definition serve_registration (self : UserManager) (user : UserCreate.t)
    (safe : bool) (request : option Request)
  : W -> result UserDB.t * W * list Item :=
  fun w =>
    let '(r, w1, l1) := create self user safe request w in
    let '(w2, l2) := run_tasks self (scheduled l1) w1 in
    (r, w2, l1 ++ l2).

(** ** Routes added by [init_users_api] *)

(** fastapi-users' [current_user] dependency: [resolved] is the account the
    bearer token resolves to, if any. *)
Definition current_user (active verified superuser : bool)
    (resolved : option UserDB.t) : result UserDB.t :=
  match resolved with
  | None => Raise (HTTPException 401 "Unauthorized")
  | Some u =>
      if active && negb (UserDB.is_active u) then
        Raise (HTTPException 401 "Unauthorized")
      else if (verified && negb (UserDB.is_verified u))
              || (superuser && negb (UserDB.is_superuser u)) then
        Raise (HTTPException 403 "Forbidden")
      else Ok u
  end.

(** [fastapi_users.current_user(active=True)] *)
Definition current_active_user : option UserDB.t -> result UserDB.t :=
  current_user true false false.

(** [POST /users/invite] *)
Definition invite_user (user_manager : UserManager) (invite : InviteRequest)
    (resolved : option UserDB.t) : M (gmap string string) :=
  user <- lift (current_active_user resolved) ;;
  (* if not user.is_superuser: raise HTTPException(403) -- commented out *)
  call (EInviteUser invite user None false)
       (invite_user_op (invites user_manager) invite user None false) ;;
  ret {[ "invited" := "new_user" ]}.

End Users.

(** ** An in-memory world

    A small store in which the collaborators can be run: the invite ledger,
    the accounts, the archives and the e-mails handed to the sender. *)
Module Store.

Record World : Type := {
  now : Z;
  ledger : gmap string InvitePending;
  accounts : list UserDB.t;
  archives : list (string * string * string);
  outbox : list (string * string)
}.

Definition set_ledger (w : World) (l : gmap string InvitePending) : World :=
  {| now := now w; ledger := l; accounts := accounts w;
     archives := archives w; outbox := outbox w |}.

Definition set_accounts (w : World) (a : list UserDB.t) : World :=
  {| now := now w; ledger := ledger w; accounts := a;
     archives := archives w; outbox := outbox w |}.

Definition add_archive (w : World) (a : string * string * string) : World :=
  {| now := now w; ledger := ledger w; accounts := accounts w;
     archives := archives w ++ [a]; outbox := outbox w |}.

Definition add_mail (w : World) (m : string * string) : World :=
  {| now := now w; ledger := ledger w; accounts := accounts w;
     archives := archives w; outbox := outbox w ++ [m] |}.

Definition live (w : World) (inv : InvitePending) : bool :=
  match expiry inv with
  | Some t => now w <? t
  | None => true
  end.

Definition for_new_account (inv : InvitePending) : bool :=
  match scope inv with
  | new_account => true
  | existing_account_link _ => false
  end.

(** Modelled from the spec: [get_valid_invite] of the invite operations in
    [invites.py], which [users.py] only calls.  It looks the
    token up and answers [None] when it is missing, expired or of the
    wrong scope for a registration; it does not consume. *)
Definition get_valid_invite (token : string) (user : UserCreate.t)
    (w : World) : result (option InvitePending) * World :=
  match ledger w !! token with
  | Some inv =>
      if live w inv && for_new_account inv then (Ok (Some inv), w)
      else (Ok None, w)
  | None => (Ok None, w)
  end.

Definition lower_ascii (c : ascii) : ascii :=
  let n := nat_of_ascii c in
  if ((65 <=? n) && (n <=? 90))%nat then ascii_of_nat (n + 32) else c.

Fixpoint lower (s : string) : string :=
  match s with
  | EmptyString => EmptyString
  | String c s' => String (lower_ascii c) (lower s')
  end.

Definition has_email (e : string) (u : UserDB.t) : bool :=
  String.eqb (UserDB.email u) e.

(** Modelled from the spec: [invite_user] of [invites.py]; with
    [allow_existing] false an address that already has an account is
    refused, otherwise the invite is recorded. *)
Definition invite_user (invite : InviteRequest) (inviter : UserDB.t)
    (archive : option string) (allow_existing : bool) (w : World)
  : result unit * World :=
  if negb allow_existing
     && existsb (has_email (invite_email invite)) (accounts w) then
    (Raise (HTTPException 400 "User already registered"), w)
  else
    let token := "invite:" +:+ invite_email invite in
    let inv := {| invite_token := token;
                  issuer := Some (UserDB.id inviter);
                  scope := match archive with
                           | Some a => existing_account_link a
                           | None => new_account
                           end;
                  created := now w;
                  expiry := None |} in
    (Ok tt, set_ledger w (<[ token := inv ]> (ledger w))).

Definition invite_ops : @InviteOps World :=
  @Build_InviteOps World get_valid_invite invite_user.

(** The account the store makes of a registration. *)
Definition account (user : UserCreate.t) : UserDB.t :=
  {| UserDB.id := "id:" +:+ lower (UserCreate.email user);
     UserDB.email := lower (UserCreate.email user);
     UserDB.hashed_password := "hash:" +:+ UserCreate.password user;
     UserDB.is_active := true;
     UserDB.is_superuser := false;
     UserDB.is_verified := false;
     UserDB.name := UserCreate.name user;
     UserDB.invites := ∅ |}.

(** Modelled from the spec: the user store's [create], reached through
    [super().create]; the e-mail is normalised, a second account for an
    address is refused, and only a hash of the password is kept. *)
Definition create (user : UserCreate.t) (safe : bool)
    (request : option Request) (w : World) : result UserDB.t * World :=
  if existsb (has_email (lower (UserCreate.email user))) (accounts w) then
    (Raise (OtherException "UserAlreadyExists"), w)
  else
    (Ok (account user), set_accounts w (accounts w ++ [account user])).

Definition set_verified (u : UserDB.t) (b : bool) : UserDB.t :=
  {| UserDB.id := UserDB.id u; UserDB.email := UserDB.email u;
     UserDB.hashed_password := UserDB.hashed_password u;
     UserDB.is_active := UserDB.is_active u;
     UserDB.is_superuser := UserDB.is_superuser u;
     UserDB.is_verified := b;
     UserDB.name := UserDB.name u; UserDB.invites := UserDB.invites u |}.

(** Modelled from the spec: [update_fields], a partial update of one
    account; only the [is_verified] field is interpreted here. *)
Definition update (user : UserDB.t) (fields : gmap string pyval)
    (w : World) : result UserDB.t * World :=
  let u := match fields !! "is_verified" with
           | Some (PyBool b) => set_verified user b
           | _ => user
           end in
  (Ok u,
   set_accounts w
     (map (fun a => if String.eqb (UserDB.id a) (UserDB.id u) then u else a)
          (accounts w))).

(** Modelled from the spec: issuing the e-mail verification token. *)
Definition verify_token (user : UserDB.t) (w : World)
  : result string * World :=
  if negb (UserDB.is_active user) then
    (Raise (OtherException "UserInactive"), w)
  else if UserDB.is_verified user then
    (Raise (OtherException "UserAlreadyVerified"), w)
  else (Ok ("email_verify:" +:+ UserDB.id user), w).

Definition user_db : @BaseUserManager World :=
  @Build_BaseUserManager World create update verify_token.

(** Modelled from the spec: the archive service. *)
Definition create_new_archive_for_user (archive_name storage_name : string)
    (user : UserDB.t) (w : World) : result unit * World :=
  (Ok tt, add_archive w (archive_name, storage_name, UserDB.id user)).

(** Modelled from the spec: invite fulfilment consumes the invite, and
    fails when it is no longer there. *)
Definition handle_new_user_invite (token : string) (user : UserDB.t)
    (w : World) : result unit * World :=
  match ledger w !! token with
  | Some _ => (Ok tt, set_ledger w (delete token (ledger w)))
  | None => (Raise (HTTPException 400 "Invalid Invite Code"), w)
  end.

Definition archive_ops : @ArchiveOps World :=
  @Build_ArchiveOps World create_new_archive_for_user handle_new_user_invite.

(** An archive service that cannot be reached. *)
Definition unreachable_archive_ops : @ArchiveOps World :=
  @Build_ArchiveOps World
    (fun _ _ _ w => (Raise (OtherException "TimeoutError"), w))
    (fun _ _ w => (Raise (OtherException "TimeoutError"), w)).

Definition send (email token : string) (w : World) : result unit * World :=
  (Ok tt, add_mail w (email, token)).

Definition emailsender : @EmailSender World :=
  {| send_user_validation := send; send_user_forgot_password := send |}.


Definition empty : World :=
  {| now := 0; ledger := ∅; accounts := []; archives := []; outbox := [] |}.

(** A process started with nothing configured, and one with open
    registration.  The interpreter of these processes has the default
    digit limit, and no text outside ASCII is put before it: the reading
    of such texts is a stand-in that takes none for a number. *)
Definition bare : Process :=
  {| environ := ∅; uuid4_hex := "0123456789abcdef0123456789abcdef";
     int_max_str_digits := 4300;
     int_non_ascii := fun _ => None |}.

Definition open_registration : Process :=
  {| environ := {[ "REGISTRATION_ENABLED" := "1" ]};
     uuid4_hex := "0123456789abcdef0123456789abcdef";
     int_max_str_digits := 4300;
     int_non_ascii := fun _ => None |}.

(** A process configured with a lifetime of ninety minutes. *)
Definition ninety_minutes : Process :=
  {| environ := {[ "JWT_TOKEN_LIFETIME_MINUTES" := "90" ]};
     uuid4_hex := "0123456789abcdef0123456789abcdef";
     int_max_str_digits := 4300;
     int_non_ascii := fun _ => None |}.

Definition globals : Globals :=
  {| PASSWORD_SECRET := uuid4_hex bare; JWT_TOKEN_LIFETIME := 3600 |}.

Definition manager (p : Process) (ops : @ArchiveOps World)
  : @UserManager World :=
  set_archive_ops (init_user_manager globals p user_db emailsender invite_ops)
                  ops.

Definition request (email : string) (token : option string)
    (newArchive : bool) : UserCreate.t :=
  {| UserCreate.email := email; UserCreate.password := "x";
     UserCreate.name := Some ""; UserCreate.inviteToken := token;
     UserCreate.newArchive := newArchive;
     UserCreate.newArchiveName := Some "" |}.

Definition invite (token : string) : InvitePending :=
  {| invite_token := token; issuer := None; scope := new_account;
     created := 0; expiry := None |}.

Definition with_invite (token : string) : World :=
  set_ledger empty {[ token := invite token ]}.

End Store.

(** ** Looking up user names *)

Section Names.

Context {W U : Type}.

(** A document of the users collection under the projection
    [["id", "name"]]. *)
Record NameDoc : Type := {
  doc_id : U;
  doc_name : option string
}.

(** [UUID4(id_)]: the parsed identifier, or [None] for the [ValueError] of
    a badly formed string. *)
Variable UUID4 : string -> option U.

(** [user_db.collection.find(filter, projection=...)], read to its end: all
    the documents whose ["id"] is [$in] the given list. *)
Variable find : list U -> list string -> W -> result (list NameDoc) * W.

(** return list of user names for given ids.  The third component is the
    list of queries sent to the collection, each with its [$in] list and
    its projection. *)
Definition get_user_names_by_ids (user_ids : list string) (w : W)
  : result (list NameDoc) * W * list (list U * list string) :=
  match mapM UUID4 user_ids with
  | None => (Raise (OtherException "ValueError"), w, [])
  | Some user_ids =>
      let projection := ["id"; "name"] in
      match find user_ids projection w with
      | (Ok cursor, w1) =>
          (* cursor.to_list(length=1000) *)
          (Ok (take 1000 cursor), w1, [(user_ids, projection)])
      | (Raise e, w1) => (Raise e, w1, [(user_ids, projection)])
      end
  end.

End Names.

(** ** Counting the calls of a run *)

(** Which collaborator function a call went to. *)
Definition event_kind (e : Event) : nat :=
  match e with
  | EGetValidInvite _ _ _ => 0
  | EInviteUser _ _ _ _ _ => 1
  | ESuperCreate _ _ _ _ => 2
  | EUpdate _ _ _ => 3
  | EVerifyToken _ _ => 4
  | ECreateNewArchive _ _ _ _ => 5
  | EHandleNewUserInvite _ _ _ => 6
  | ESendUserValidation _ _ _ => 7
  | ESendUserForgotPassword _ _ _ => 8
  end%nat.

(** Is the item a call to the archive operations? *)
Definition is_archive_call (it : Item) : bool :=
  match it with
  | Call (ECreateNewArchive _ _ _ _) => true
  | Call (EHandleNewUserInvite _ _ _) => true
  | _ => false
  end.

(** Stand-ins for the properties that follow: identifiers are the strings
    the in-memory store hands out, the users collection is the list of
    accounts of the world, and a few more processes and requests. *)
Module Doubles.

Definition uuid (s : string) : option string :=
  if String.prefix "id:" s then Some s else None.

Definition find (ids : list string) (projection : list string)
    (w : Store.World) : result (list (@NameDoc string)) * Store.World :=
  (Ok (omap (fun a =>
         if bool_decide (UserDB.id a ∈ ids)
         then Some {| doc_id := UserDB.id a; doc_name := UserDB.name a |}
         else None) (Store.accounts w)),
   w).

(** A process whose lifetime setting is no number. *)
Definition unreadable_lifetime : Process :=
  {| environ := {[ "JWT_TOKEN_LIFETIME_MINUTES" := "an hour" ]};
     uuid4_hex := "0123456789abcdef0123456789abcdef";
     int_max_str_digits := 4300;
     int_non_ascii := fun _ => None |}.

(** A manager as [init_user_manager] leaves it, before [set_archive_ops]. *)
Definition unwired (p : Process) : @UserManager Store.World :=
  init_user_manager Store.globals p Store.user_db Store.emailsender
    Store.invite_ops.

(** A request that names itself and its archive. *)
Definition named_request (email : string) (token : option string)
    : UserCreate.t :=
  {| UserCreate.email := email; UserCreate.password := "x";
     UserCreate.name := Some "Ada"; UserCreate.inviteToken := token;
     UserCreate.newArchive := true;
     UserCreate.newArchiveName := Some "Lab" |}.

(** An account that has been deactivated. *)
Definition inactive (u : UserDB.t) : UserDB.t :=
  {| UserDB.id := UserDB.id u; UserDB.email := UserDB.email u;
     UserDB.hashed_password := UserDB.hashed_password u;
     UserDB.is_active := false;
     UserDB.is_superuser := UserDB.is_superuser u;
     UserDB.is_verified := UserDB.is_verified u;
     UserDB.name := UserDB.name u; UserDB.invites := UserDB.invites u |}.

End Doubles.

(** * Properties *)

(** ** Reading the module globals *)

Example py_int_plain : py_int 4300 (fun _ => None) "60" = Some 60.
Proof. reflexivity. Qed.

Example py_int_signed_grouped :
  py_int 4300 (fun _ => None) "  -1_000 " = Some (-1000).
Proof. reflexivity. Qed.

Example py_int_rejects :
  let int := py_int 4300 (fun _ => None) in
  int "1__0" = None /\ int "_1" = None /\ int "1_" = None
  /\ int "" = None /\ int "6o" = None /\ int "+ 5" = None.
Proof. repeat split; reflexivity. Qed.

(** A tab is a blank for [int], the unit separator (byte 31) is not. *)
Example py_int_blanks :
  py_int 4300 (fun _ => None) (String (ascii_of_nat 9) "60") = Some 60
  /\ py_int 4300 (fun _ => None) (String (ascii_of_nat 31) "60") = None.
Proof. split; reflexivity. Qed.

(** The digit limit counts leading zeros, and 0 lifts it. *)
Example py_int_digit_limit :
  let zeros := string_of_list_ascii (repeat "0"%char 4301) in
  py_int 4300 (fun _ => None) zeros = None
  /\ py_int 0 (fun _ => None) zeros = Some 0.
Proof. split; vm_compute; reflexivity. Qed.

(** [py_int] reads a plain decimal numeral as the number it denotes. *)
Lemma digit_char_facts d :
  (d < 10)%nat ->
  digit_val (digit_char d) = Some (Z.of_nat d)
  /\ is_space (digit_char d) = false
  /\ Ascii.eqb (digit_char d) "-" = false
  /\ Ascii.eqb (digit_char d) "+" = false
  /\ (nat_of_ascii (digit_char d) <? 128)%nat = true.
Proof.
  intros Hd. do 10 (destruct d as [|d]; [by repeat split|]). lia.
Qed.

#[local] Opaque digit_char digit_val is_space Ascii.eqb nat_of_ascii.

Lemma parse_digits_decimal ds acc n b :
  Forall (fun d => (d < 10)%nat) ds ->
  ds <> [] \/ b = true ->
  parse_digits acc n b (map digit_char ds)
  = Some (fold_left (fun a d => 10 * a + Z.of_nat d) ds acc,
          (n + length ds)%nat).
Proof.
  intros Hds. revert acc n b.
  induction Hds as [|d ds Hd _ IH]; intros acc n b Hne.
  - destruct Hne as [?| ->]; [done|]. simpl. by rewrite Nat.add_0_r.
  - simpl. destruct (digit_char_facts d Hd) as (-> & _).
    rewrite IH by (by right). by rewrite Nat.add_succ_r.
Qed.

Lemma lstrip_decimal ds :
  Forall (fun d => (d < 10)%nat) ds ->
  lstrip (map digit_char ds) = map digit_char ds.
Proof.
  intros [|d ds' Hd _]; [done|]. simpl.
  by destruct (digit_char_facts d Hd) as (_ & -> & _).
Qed.

Lemma is_ascii_text_decimal ds :
  Forall (fun d => (d < 10)%nat) ds ->
  is_ascii_text (string_of_list_ascii (map digit_char ds)) = true.
Proof.
  intros Hds. unfold is_ascii_text.
  rewrite list_ascii_of_string_of_list_ascii.
  induction Hds as [|d ds Hd _ IH]; [done|]. simpl.
  by destruct (digit_char_facts d Hd) as (_ & _ & _ & _ & ->).
Qed.

Lemma py_int_decimal max_str_digits non_ascii ds :
  Forall (fun d => (d < 10)%nat) ds ->
  ds <> [] ->
  exceeds_limit max_str_digits (length ds) = false ->
  py_int max_str_digits non_ascii (string_of_list_ascii (map digit_char ds))
  = Some (fold_left (fun a d => 10 * a + Z.of_nat d) ds 0).
Proof.
  intros Hds Hne Hlimit. unfold py_int.
  rewrite is_ascii_text_decimal by done. unfold int_of_ascii, strip.
  rewrite list_ascii_of_string_of_list_ascii, lstrip_decimal by done.
  rewrite <- map_rev, lstrip_decimal, map_rev, rev_involutive
    by (by apply Forall_rev).
  destruct Hds as [|d ds Hd Hds]; [done|].
  change (map digit_char (d :: ds)) with (digit_char d :: map digit_char ds).
  cbv beta iota zeta.
  destruct (digit_char_facts d Hd) as (_ & _ & -> & -> & _).
  cbv beta iota zeta. simpl orb. cbv beta iota.
  change (digit_char d :: map digit_char ds)
    with (map digit_char (d :: ds)).
  rewrite (parse_digits_decimal (d :: ds) 0 0 false);
    [|by constructor|by left].
  by rewrite Nat.add_0_l, Hlimit.
Qed.

(** What [int] takes for a numeral is made of digits and underscores. *)
Lemma parse_digits_chars acc n b l r :
  parse_digits acc n b l = Some r ->
  Forall (fun c => is_Some (digit_val c) \/ Ascii.eqb c "_" = true) l.
Proof.
  revert acc n b. induction l as [|c l IH]; intros acc n b Hparse; [done|].
  simpl in Hparse. destruct (digit_val c) as [d|] eqn:Hd.
  - constructor; [left; by exists d|]. exact (IH _ _ _ Hparse).
  - destruct (Ascii.eqb c "_") eqn:Hu; [|done].
    destruct b; [|done]. constructor; [by right|]. exact (IH _ _ _ Hparse).
Qed.

Lemma lstrip_keeps c l :
  In c l -> is_space c = false -> In c (lstrip l).
Proof.
  intros Hin Hc. induction l as [|x l IH]; [done|]. simpl.
  destruct (is_space x) eqn:Hx; [|done].
  destruct Hin as [->|Hin]; [congruence|by apply IH].
Qed.

Lemma strip_keeps c l :
  In c l -> is_space c = false -> In c (strip l).
Proof.
  intros Hin Hc. unfold strip.
  apply -> in_rev. apply lstrip_keeps; [|done].
  apply -> in_rev. by apply lstrip_keeps.
Qed.

#[local] Transparent digit_char digit_val is_space Ascii.eqb nat_of_ascii.

(** C8: the bearer-token lifetime is the configured number of minutes times
    60, and exactly 3600 seconds when [JWT_TOKEN_LIFETIME_MINUTES] is not
    set; the authentication backend is built with that very number.  The
    configured number is what [int] reads in the setting; for a setting
    that is a plain decimal numeral within the interpreter's digit limit it
    is the number the numeral denotes. *)
Theorem jwt_token_lifetime (p : Process) :
  (environ p !! "JWT_TOKEN_LIFETIME_MINUTES" = None ->
   exists g, import_users p = Ok g
     /\ JWT_TOKEN_LIFETIME g = 3600
     /\ lifetime_seconds (jwt_authentication g) = 3600)
  /\ (forall s minutes,
        environ p !! "JWT_TOKEN_LIFETIME_MINUTES" = Some s ->
        py_int (int_max_str_digits p) (int_non_ascii p) s = Some minutes ->
        exists g, import_users p = Ok g
          /\ JWT_TOKEN_LIFETIME g = minutes * 60
          /\ lifetime_seconds (jwt_authentication g) = minutes * 60)
  /\ (forall ds,
        Forall (fun d => (d < 10)%nat) ds ->
        ds <> [] ->
        exceeds_limit (int_max_str_digits p) (length ds) = false ->
        environ p !! "JWT_TOKEN_LIFETIME_MINUTES"
        = Some (string_of_list_ascii (map digit_char ds)) ->
        exists g, import_users p = Ok g
          /\ JWT_TOKEN_LIFETIME g
             = fold_left (fun a d => 10 * a + Z.of_nat d) ds 0 * 60
          /\ lifetime_seconds (jwt_authentication g)
             = fold_left (fun a d => 10 * a + Z.of_nat d) ds 0 * 60).
Proof.
  split; [|split].
  - intros Henv. unfold import_users. rewrite Henv. eexists. by split.
  - intros s minutes Henv Hint. unfold import_users. rewrite Henv, Hint.
    eexists. by split.
  - intros ds Hds Hne Hlimit Henv. unfold import_users.
    rewrite Henv, (py_int_decimal _ _ ds Hds Hne Hlimit). eexists. by split.
Qed.

Lemma jwt_token_lifetime_witness :
  (exists g, import_users Store.bare = Ok g
     /\ JWT_TOKEN_LIFETIME g = 3600
     /\ lifetime_seconds (jwt_authentication g) = 3600)
  /\ (exists g, import_users Store.ninety_minutes = Ok g
        /\ JWT_TOKEN_LIFETIME g = 5400
        /\ lifetime_seconds (jwt_authentication g) = 5400)
  /\ (exists g, import_users Store.ninety_minutes = Ok g
        /\ JWT_TOKEN_LIFETIME g = 90 * 60
        /\ lifetime_seconds (jwt_authentication g) = 90 * 60).
Proof.
  split; [|split].
  - apply (proj1 (jwt_token_lifetime Store.bare)). reflexivity.
  - apply (proj1 (proj2 (jwt_token_lifetime Store.ninety_minutes)) "90" 90);
      reflexivity.
  - apply (proj2 (proj2 (jwt_token_lifetime Store.ninety_minutes))
             [9; 0]%nat).
    + repeat constructor.
    + discriminate.
    + reflexivity.
    + reflexivity.
Defined.


Ltac unfold_run :=
  unfold create, on_after_register_custom, try_except_HTTPException,
    get_archive_ops, bind, call, print, create_task, lift, ret, raise in *.

Ltac paths := repeat (case_match; simplify_eq/=).

Ltac elem_inv :=
  repeat match goal with
  | H : _ ∈ [] |- _ => by apply elem_of_nil in H
  | H : _ ∈ _ :: _ |- _ => apply elem_of_cons in H as [H|H]; simplify_eq
  | H : list_elem_of _ [] |- _ => by apply elem_of_nil in H
  | H : list_elem_of _ (_ :: _) |- _ =>
      apply elem_of_cons in H as [H|H]; simplify_eq
  end.

(** Finds an item in a literal list. *)
Ltac elem_find :=
  by repeat first [ apply list_elem_of_here | apply list_elem_of_further ].

(** Closes [exists pre, l = pre ++ suffix] for a literal list [l]. *)
Ltac split_log :=
  first [ by exists [] | by eexists [_] | by eexists [_; _]
        | by eexists [_; _; _] | by eexists [_; _; _; _]
        | by eexists [_; _; _; _; _] | by eexists [_; _; _; _; _; _] ].

(** The invite check, as the spec describes it, leaves the world alone. *)
Lemma get_valid_invite_does_not_consume token user w :
  (Store.get_valid_invite token user w).2 = w.
Proof. unfold Store.get_valid_invite. by repeat case_match. Qed.

Section Registration.

Context {W : Type}.
Implicit Types (self : @UserManager W) (w : W) (log : list Item).

Lemma run_eta {A} (x : result A * W * list Item) : x = (x.1.1, x.1.2, x.2).
Proof. by destruct x as [[??]?]. Qed.

(** C7: one secret, [PASSWORD_SECRET], signs bearer tokens, password-reset
    tokens and e-mail verification tokens; it is the configured value when
    the environment has one, and otherwise the random hex string drawn once
    when the module is imported. *)
Theorem one_shared_secret (p : Process) (g : Globals)
    (user_db : @BaseUserManager W) (emailsender : @EmailSender W)
    (invs : @InviteOps W) :
  import_users p = Ok g ->
  secret (jwt_authentication g) = PASSWORD_SECRET g
  /\ reset_password_token_secret
       (init_user_manager g p user_db emailsender invs) = PASSWORD_SECRET g
  /\ verification_token_secret
       (init_user_manager g p user_db emailsender invs) = PASSWORD_SECRET g
  /\ (environ p !! "PASSWORD_SECRET" = None -> PASSWORD_SECRET g = uuid4_hex p)
  /\ (forall s, environ p !! "PASSWORD_SECRET" = Some s ->
                PASSWORD_SECRET g = s).
Proof.
  intros Himp. repeat split; try reflexivity.
  - intros Henv. unfold import_users in Himp. rewrite Henv in Himp.
    repeat case_match; by simplify_eq/=.
  - intros s Henv. unfold import_users in Himp. rewrite Henv in Himp.
    repeat case_match; by simplify_eq/=.
Qed.

(** C3: with open registration disabled and no invite token in the request,
    [create] raises "Invite Token Required" (400) at once: it calls no
    collaborator, prints nothing, schedules nothing and leaves the world as
    it was, so no account exists and no post-processing has run. *)
Theorem create_invite_required self user safe request w :
  registration_enabled self = false ->
  truthy (UserCreate.inviteToken user) = false ->
  create self user safe request w
  = (Raise (HTTPException 400 "Invite Token Required"), w, []).
Proof.
  intros Hreg Htok. unfold create. simpl. by rewrite Hreg, Htok.
Qed.

(** C4: a request that carries an invite token has it checked with
    [get_valid_invite] as the first thing [create] does, before any account
    is created.  When the check answers no invite the attempt ends there
    with "Invalid Invite Token" (400), and when it raises, with that error;
    in both cases nothing else was called and the world is as the check left
    it.  When it answers an invite, account creation comes next, on the
    world the check left.  With a check that does not consume that world is
    the one of the start, and [get_valid_invite] as the spec describes it
    does not consume. *)
Theorem invite_checked_before_creation self user safe request w tok r w' log :
  UserCreate.inviteToken user = Some tok ->
  tok <> "" ->
  create self user safe request w = (r, w', log) ->
  exists res w1 rest,
    get_valid_invite (invites self) tok (default_name user) w = (res, w1)
    /\ log = Call (EGetValidInvite tok (default_name user) res) :: rest
    /\ match res with
       | Ok (Some _) =>
           exists cres w2 rest',
             super_create (base self) (default_name user) safe request w1
             = (cres, w2)
             /\ rest = Call (ESuperCreate (default_name user) safe request cres)
                       :: rest'
       | Ok None =>
           r = Raise (HTTPException 400 "Invalid Invite Token")
           /\ rest = [] /\ w' = w1
       | Raise e => r = Raise e /\ rest = [] /\ w' = w1
       end
    /\ ((forall t u w0, (get_valid_invite (invites self) t u w0).2 = w0) ->
        w1 = w)
    /\ (forall t u sw, (Store.get_valid_invite t u sw).2 = sw).
Proof.
  intros Htok Hne Hrun.
  apply String.eqb_neq in Hne.
  destruct (get_valid_invite (invites self) tok (default_name user) w)
    as [res w1] eqn:Hgvi.
  assert (Hpure : (forall t u w0,
            (get_valid_invite (invites self) t u w0).2 = w0) -> w1 = w).
  { intros Hp. specialize (Hp tok (default_name user) w).
    by rewrite Hgvi in Hp. }
  unfold_run. simpl in Hrun. rewrite Htok in Hrun. simpl in Hrun.
  rewrite Hne in Hrun. simpl in Hrun. rewrite andb_false_r, Hgvi in Hrun.
  destruct res as [[inv|]|e]; simpl in Hrun.
  - destruct (super_create (base self) (default_name user) safe request w1)
      as [cres w2] eqn:Hcreate.
    exists (Ok (Some inv)), w1.
    destruct cres as [u|e]; paths; simplify_eq; eexists; (split; [done|]);
      (split; [reflexivity|]); (split; [by repeat eexists|]);
      (split; [done|]); apply get_valid_invite_does_not_consume.
  - simplify_eq. exists (Ok None), w', []. repeat split; try done.
    apply get_valid_invite_does_not_consume.
  - simplify_eq. exists (Raise e), w', []. repeat split; try done.
    apply get_valid_invite_does_not_consume.
Qed.

(** C5: when account creation itself fails -- [super().create] raises, as it
    does for a duplicate e-mail -- [create] raises that same error, the
    failed call is the last thing it did, and nothing of post-processing
    has happened: no archive call, no invite fulfilment, no verified update,
    no e-mail call, no task and no output. *)
Theorem create_failure_aborts self user safe request w r w' log u sf rq e :
  create self user safe request w = (r, w', log) ->
  Call (ESuperCreate u sf rq (Raise e)) ∈ log ->
  r = Raise e
  /\ (exists pre, log = pre ++ [Call (ESuperCreate u sf rq (Raise e))])
  /\ Forall (fun it => is_postprocessing it = false) log
  /\ scheduled log = [] /\ stdout log = [].
Proof.
  intros Hrun Hin. unfold_run. simpl in Hrun.
  paths; elem_inv.
  all: split; [done|]; split; [split_log|]; split; [|done].
  all: by repeat constructor.
Qed.

(** C1, as the code has it: a failure of [create_new_archive_for_user] is
    not caught.  [create] raises that error to the caller instead of
    returning the account, although the account has been created by then;
    the failed call is the last thing done, so neither invite fulfilment and
    the verified update nor the scheduling of the verification e-mail
    happens. *)
Theorem archive_failure_propagates self user safe request w r w' log n st u e :
  create self user safe request w = (r, w', log) ->
  Call (ECreateNewArchive n st u (Raise e)) ∈ log ->
  r = Raise e
  /\ Call (ESuperCreate (default_name user) safe request (Ok u)) ∈ log
  /\ (exists pre, log = pre ++ [Call (ECreateNewArchive n st u (Raise e))])
  /\ Forall (fun it => after_archive_step it = false) log.
Proof.
  intros Hrun Hin. unfold_run. simpl in Hrun.
  paths; elem_inv.
  all: split; [done|]; split; [elem_find|]; split; [split_log|].
  all: by repeat constructor.
Qed.

(** C2, as the code has it: once [handle_new_user_invite] has answered, an
    [HTTPException] it raised is printed and dropped, and then -- as after a
    success -- [_update] is called on the account with [is_verified] set to
    [True]; that call is the last step, and [create] returns the account as
    the update left it, or raises what the update raised.  Any other exception of
    [handle_new_user_invite] ends the attempt with that error and without
    the update.  Invite fulfilment is reached whenever the request carries a
    token, the account was created, the archive operations are wired in and
    the archive step did not raise. *)
Theorem invite_fulfilment_then_verified self user safe request w r w' log :
  create self user safe request w = (r, w', log) ->
  (forall tok u res,
     Call (EHandleNewUserInvite tok u res) ∈ log ->
     match res with
     | Raise (OtherException name) =>
         r = Raise (OtherException name)
         /\ (exists pre, log = pre ++ [Call (EHandleNewUserInvite tok u res)])
         /\ Forall (fun it => forall a d x, it <> Call (EUpdate a d x)) log
     | _ =>
         exists pre ures,
           log = pre ++ Call (EHandleNewUserInvite tok u res)
                       :: printed_exc res
                       ++ [Call (EUpdate u {[ "is_verified" := PyBool true ]}
                                         ures)]
           /\ r = ures
     end)
  /\ (forall tok u,
        UserCreate.inviteToken user = Some tok ->
        tok <> "" ->
        Call (ESuperCreate (default_name user) safe request (Ok u)) ∈ log ->
        is_Some (archive_ops self) ->
        (forall n st a e, Call (ECreateNewArchive n st a (Raise e)) ∉ log) ->
        exists res, Call (EHandleNewUserInvite tok u res) ∈ log).
Proof.
  intros Hrun. split.
  - intros tok u res Hin. unfold_run. simpl in Hrun.
    paths; elem_inv; simpl.
    all: try (split; [done|]; split; [split_log|];
              repeat constructor; by intros).
    all: first [ by eexists [], _ | by eexists [_], _ | by eexists [_; _], _
               | by eexists [_; _; _], _ | by eexists [_; _; _; _], _
               | by eexists [_; _; _; _; _], _ ].
  - intros tok u Htok Hne Hcreated [ops Hops] Harch.
    apply String.eqb_neq in Hne.
    unfold_run. simpl in Hrun. rewrite Htok, Hops in Hrun. simpl in Hrun.
    rewrite Hne in Hrun. simpl in Hrun.
    paths; elem_inv.
    all: try (eexists; elem_find).
    all: exfalso; eapply Harch; elem_find.
Qed.

(** C6: a blank name is replaced by the e-mail before anything else, and it
    is the request with that name that every collaborator is handed.  When a
    new archive is asked for and its name is blank, the archive operations
    are called with the created account's name (or e-mail, should the name
    be blank), followed by "'s Archive", and storage "default".  For
    "a@example.com" with blank name and blank archive name, and a user store
    that keeps the e-mail and name it was given, that is
    "a@example.com's Archive". *)
Theorem default_display_names self user safe request w r w' log :
  create self user safe request w = (r, w', log) ->
  (truthy (UserCreate.name user) = false ->
   UserCreate.name (default_name user) = Some (UserCreate.email user))
  /\ (forall t u res, Call (EGetValidInvite t u res) ∈ log ->
                      u = default_name user)
  /\ (forall u sf rq res, Call (ESuperCreate u sf rq res) ∈ log ->
                          u = default_name user)
  /\ (UserCreate.newArchive user = true ->
      truthy (UserCreate.newArchiveName user) = false ->
      (forall n st a res,
         Call (ECreateNewArchive n st a res) ∈ log ->
         n = str_or (UserDB.name a) (UserDB.email a) +:+ "'s Archive"
         /\ st = "default"
         /\ Call (ESuperCreate (default_name user) safe request (Ok a)) ∈ log)
      /\ (forall a,
            Call (ESuperCreate (default_name user) safe request (Ok a)) ∈ log ->
            is_Some (archive_ops self) ->
            (exists res,
               Call (ECreateNewArchive (default_archive_name a) "default" a res)
               ∈ log)
            /\ (UserCreate.email user = "a@example.com" ->
                truthy (UserCreate.name user) = false ->
                UserDB.email a = UserCreate.email (default_name user) ->
                UserDB.name a = UserCreate.name (default_name user) ->
                default_archive_name a = "a@example.com's Archive"))).
Proof.
  intros Hrun. split; [|split; [|split; [|intros Hnew Hblank; split]]].
  - unfold truthy, default_name, str_or. simpl.
    destruct (UserCreate.name user) as [s|]; [|done].
    by destruct (String.eqb s "").
  - intros t u res Hin. unfold_run. simpl in Hrun. paths; by elem_inv.
  - intros u sf rq res Hin. unfold_run. simpl in Hrun. paths; by elem_inv.
  - intros n st a res Hin.
    assert (Hname : forall b, str_or (UserCreate.newArchiveName user) b = b).
    { intros b. unfold truthy in Hblank. unfold str_or.
      destruct (UserCreate.newArchiveName user) as [s|]; [|done].
      by destruct (String.eqb s ""). }
    unfold_run. simpl in Hrun. rewrite Hnew in Hrun.
    paths; elem_inv; rewrite Hname; (split; [done|]); (split; [done|]);
      elem_find.
  - intros a Hcreated [ops Hops]. split.
    + assert (Hname : forall b, str_or (UserCreate.newArchiveName user) b = b).
      { intros b. unfold truthy in Hblank. unfold str_or.
        destruct (UserCreate.newArchiveName user) as [s|]; [|done].
        by destruct (String.eqb s ""). }
      unfold_run. simpl in Hrun. rewrite Hnew, Hops in Hrun.
      paths; elem_inv; rewrite ?Hname; eexists; elem_find.
    + intros Hmail Hnone Hemail Hnm. unfold default_archive_name.
      rewrite Hemail, Hnm. unfold truthy in Hnone.
      unfold default_name, str_or. simpl. rewrite Hmail.
      destruct (UserCreate.name user) as [s|]; [|done].
      destruct (String.eqb s ""); [done|done].
Qed.


(** C10: for any active account the token resolves to, superuser or not,
    [POST /users/invite] makes exactly one call, [invites.invite_user] with
    [archive=None] and [allow_existing=False], and answers
    [{"invited": "new_user"}] when that call returns; an error of the call
    is passed on. *)
Theorem invite_endpoint (user_manager : @UserManager W) invite u w :
  UserDB.is_active u = true ->
  exists res w1,
    invite_user_op (invites user_manager) invite u None false w = (res, w1)
    /\ invite_user user_manager invite (Some u) w
       = (match res with
          | Ok _ => Ok {[ "invited" := "new_user" ]}
          | Raise e => Raise e
          end,
          w1, [Call (EInviteUser invite u None false res)]).
Proof.
  intros Hactive.
  destruct (invite_user_op (invites user_manager) invite u None false w)
    as [res w1] eqn:Hcall.
  exists res, w1. split; [done|].
  unfold invite_user, current_active_user, current_user, bind, lift, call, ret.
  rewrite Hactive. simpl. rewrite Hcall. by destruct res.
Qed.

End Registration.

(** ** The properties at work in the in-memory world *)

Module Scenario.

(** Registration is closed and the request has no invite token. *)
Lemma create_invite_required_witness :
  registration_enabled (Store.manager Store.bare Store.archive_ops) = false
  /\ create (Store.manager Store.bare Store.archive_ops)
            (Store.request "a@example.com" None true) true None Store.empty
     = (Raise (HTTPException 400 "Invite Token Required"), Store.empty, []).
Proof.
  split; [reflexivity|].
  apply create_invite_required; reflexivity.
Defined.

(** A token the ledger does not know: the check answers [None]. *)
Lemma invite_checked_before_creation_witness :
  let self := Store.manager Store.bare Store.archive_ops in
  let user := Store.request "b@example.com" (Some "bogus") false in
  let w := Store.with_invite "tok" in
  let run := create self user true None w in
  exists res rest,
    get_valid_invite (invites self) "bogus" (default_name user) w = (res, w)
    /\ run.2 = Call (EGetValidInvite "bogus" (default_name user) res) :: rest
    /\ match res with
       | Ok (Some _) =>
           exists cres w2 rest',
             super_create (base self) (default_name user) true None w
             = (cres, w2)
             /\ rest = Call (ESuperCreate (default_name user) true None cres)
                       :: rest'
       | Ok None =>
           run.1.1 = Raise (HTTPException 400 "Invalid Invite Token")
           /\ rest = [] /\ run.1.2 = w
       | Raise e => run.1.1 = Raise e /\ rest = [] /\ run.1.2 = w
       end.
Proof.
  intros self user w run.
  destruct (invite_checked_before_creation self user true None w "bogus"
              run.1.1 run.1.2 run.2 eq_refl ltac:(discriminate)
              (run_eta run))
    as (res & w1 & rest & Hcheck & Hlog & Hcases & Hpure & Hspec).
  assert (Hw : w1 = w) by (apply Hpure; intros t u w0; apply Hspec).
  rewrite Hw in Hcheck, Hcases. by exists res, rest.
Defined.

(** The address already has an account. *)
Lemma create_failure_aborts_witness :
  let self := Store.manager Store.open_registration Store.archive_ops in
  let user := Store.request "a@example.com" None true in
  let w := Store.set_accounts Store.empty [Store.account (default_name user)] in
  let run := create self user true None w in
  let failed := Call (ESuperCreate (default_name user) true None
                        (Raise (OtherException "UserAlreadyExists"))) in
  failed ∈ run.2
  /\ run.1.1 = Raise (OtherException "UserAlreadyExists")
  /\ (exists pre, run.2 = pre ++ [failed])
  /\ Forall (fun it => is_postprocessing it = false) run.2
  /\ scheduled run.2 = [] /\ stdout run.2 = [].
Proof.
  intros self user w run failed.
  assert (Hin : failed ∈ run.2) by (vm_compute; elem_find).
  split; [exact Hin|].
  exact (create_failure_aborts self user true None w run.1.1 run.1.2 run.2
           _ _ _ _ (run_eta run) Hin).
Defined.

(** C1 does not hold as the spec words it: the archive service times out after the
    account has been created, and [create] raises the time-out instead of
    returning the account. *)
Lemma archive_timeout_fails_registration :
  let self := Store.manager Store.open_registration Store.unreachable_archive_ops in
  let user := Store.request "a@example.com" None true in
  let created := Store.account (default_name user) in
  let run := create self user true None Store.empty in
  Call (ESuperCreate (default_name user) true None (Ok created)) ∈ run.2
  /\ Call (ECreateNewArchive "a@example.com's Archive" "default" created
             (Raise (OtherException "TimeoutError"))) ∈ run.2
  /\ Store.accounts run.1.2 = [created]
  /\ run.1.1 = Raise (OtherException "TimeoutError")
  /\ run.1.1 <> Ok created.
Proof.
  intros self user created run.
  assert (Hr : run.1.1 = Raise (OtherException "TimeoutError"))
    by (vm_compute; reflexivity).
  split; [vm_compute; elem_find|].
  split; [vm_compute; elem_find|].
  split; [vm_compute; reflexivity|].
  split; [exact Hr|]. by rewrite Hr.
Qed.

Lemma archive_failure_propagates_witness :
  let self := Store.manager Store.open_registration Store.unreachable_archive_ops in
  let user := Store.request "a@example.com" None true in
  let created := Store.account (default_name user) in
  let run := create self user true None Store.empty in
  let failed := Call (ECreateNewArchive "a@example.com's Archive" "default"
                        created (Raise (OtherException "TimeoutError"))) in
  failed ∈ run.2
  /\ run.1.1 = Raise (OtherException "TimeoutError")
  /\ Call (ESuperCreate (default_name user) true None (Ok created)) ∈ run.2
  /\ (exists pre, run.2 = pre ++ [failed])
  /\ Forall (fun it => after_archive_step it = false) run.2.
Proof.
  intros self user created run failed.
  assert (Hin : failed ∈ run.2) by (vm_compute; elem_find).
  split; [exact Hin|].
  exact (archive_failure_propagates self user true None Store.empty
           run.1.1 run.1.2 run.2 _ _ _ _ (run_eta run) Hin).
Defined.

(** C2 does not hold as the spec words it: invite fulfilment fails with something
    other than an [HTTPException]; the error reaches the caller and the
    account is never marked verified. *)
Lemma invite_timeout_is_not_swallowed :
  let self := Store.manager Store.bare Store.unreachable_archive_ops in
  let user := Store.request "b@example.com" (Some "tok") false in
  let created := Store.account (default_name user) in
  let run := create self user true None (Store.with_invite "tok") in
  Call (ESuperCreate (default_name user) true None (Ok created)) ∈ run.2
  /\ Call (EHandleNewUserInvite "tok" created
             (Raise (OtherException "TimeoutError"))) ∈ run.2
  /\ run.1.1 = Raise (OtherException "TimeoutError")
  /\ Forall (fun it => forall a d x, it <> Call (EUpdate a d x)) run.2
  /\ UserDB.is_verified <$> Store.accounts run.1.2 = [false].
Proof.
  intros self user created run.
  split; [vm_compute; elem_find|].
  split; [vm_compute; elem_find|].
  split; [vm_compute; reflexivity|].
  split; [|vm_compute; reflexivity].
  vm_compute. repeat constructor; by intros.
Qed.

(** A valid invite: fulfilment succeeds, the account is marked verified and
    the invite is gone from the ledger. *)
Lemma invite_fulfilment_then_verified_witness :
  let self := Store.manager Store.bare Store.archive_ops in
  let user := Store.request "b@example.com" (Some "tok") false in
  let created := Store.account (default_name user) in
  let run := create self user true None (Store.with_invite "tok") in
  (exists pre ures,
     run.2 = pre ++ [Call (EHandleNewUserInvite "tok" created (Ok tt));
                     Call (EUpdate created {[ "is_verified" := PyBool true ]}
                                   ures)]
     /\ run.1.1 = ures)
  /\ (exists res, Call (EHandleNewUserInvite "tok" created res) ∈ run.2)
  /\ run.1.1 = Ok (Store.set_verified created true)
  /\ Store.accounts run.1.2 = [Store.set_verified created true]
  /\ Store.ledger run.1.2 !! "tok" = None.
Proof.
  intros self user created run.
  destruct (invite_fulfilment_then_verified self user true None
              (Store.with_invite "tok") run.1.1 run.1.2 run.2 (run_eta run))
    as [Hanswer Hreached].
  split; [|split; [|split; [|split]]].
  - apply (Hanswer "tok" created (Ok tt)). vm_compute. elem_find.
  - apply (Hreached "tok" created); [reflexivity|discriminate| |by eexists|].
    + vm_compute. elem_find.
    + intros n st a e Hin. vm_compute in Hin. elem_inv.
  - vm_compute. reflexivity.
  - vm_compute. reflexivity.
  - vm_compute. reflexivity.
Defined.

(** The scenario of the spec: "a@example.com", no name, no archive name. *)
Lemma default_display_names_witness :
  let self := Store.manager Store.open_registration Store.archive_ops in
  let user := Store.request "a@example.com" None true in
  let created := Store.account (default_name user) in
  let run := create self user true None Store.empty in
  UserCreate.name (default_name user) = Some "a@example.com"
  /\ (exists res,
        Call (ECreateNewArchive (default_archive_name created) "default"
                created res) ∈ run.2)
  /\ default_archive_name created = "a@example.com's Archive"
  /\ Store.archives run.1.2
     = [("a@example.com's Archive", "default", "id:a@example.com")].
Proof.
  intros self user created run.
  destruct (default_display_names self user true None Store.empty
              run.1.1 run.1.2 run.2 (run_eta run))
    as (Hname & _ & _ & Harchive).
  destruct (Harchive eq_refl eq_refl) as [_ Hcalled].
  destruct (Hcalled created) as [Hcall Hscenario];
    [vm_compute; elem_find | by eexists |].
  split; [by apply Hname|]. split; [exact Hcall|].
  split; [by apply Hscenario|]. vm_compute. reflexivity.
Defined.

(** Nothing configured: the random hex string is the secret everywhere. *)
Lemma one_shared_secret_witness :
  import_users Store.bare = Ok Store.globals
  /\ secret (jwt_authentication Store.globals) = uuid4_hex Store.bare
  /\ reset_password_token_secret (Store.manager Store.bare Store.archive_ops) = uuid4_hex Store.bare
  /\ verification_token_secret (Store.manager Store.bare Store.archive_ops) = uuid4_hex Store.bare.
Proof.
  assert (Himp : import_users Store.bare = Ok Store.globals) by reflexivity.
  destruct (one_shared_secret Store.bare Store.globals Store.user_db Store.emailsender Store.invite_ops
              Himp) as (Hjwt & Hreset & Hverify & Hrandom & _).
  split; [exact Himp|]. rewrite <- (Hrandom eq_refl).
  split; [exact Hjwt|]. split; [exact Hreset|exact Hverify].
Defined.


(** An active account that is no superuser invites someone. *)
Lemma invite_endpoint_witness :
  let inviter := Store.account (Store.request "a@example.com" None false) in
  UserDB.is_superuser inviter = false
  /\ exists res w1,
       invite_user_op Store.invite_ops {| invite_email := "c@example.com" |}
                      inviter None false Store.empty = (res, w1)
       /\ invite_user (Store.manager Store.bare Store.archive_ops)
                      {| invite_email := "c@example.com" |}
                      (Some inviter) Store.empty
          = (match res with
             | Ok _ => Ok {[ "invited" := "new_user" ]}
             | Raise e => Raise e
             end,
             w1,
             [Call (EInviteUser {| invite_email := "c@example.com" |}
                                inviter None false res)]).
Proof.
  intros inviter. split; [reflexivity|].
  apply (invite_endpoint (Store.manager Store.bare Store.archive_ops)
           {| invite_email := "c@example.com" |} inviter Store.empty).
  reflexivity.
Defined.

End Scenario.

(** * Further properties of the module *)

(** ** Module import *)

(** X3: when [JWT_TOKEN_LIFETIME_MINUTES] is an ASCII text with a character
    in it that is neither a digit, an underscore, a sign nor a blank -- as
    in "60m", "1.5" or "an hour" -- importing the module fails with
    [ValueError]. *)
Theorem import_users_rejects_foreign_character (p : Process) s c :
  environ p !! "JWT_TOKEN_LIFETIME_MINUTES" = Some s ->
  is_ascii_text s = true ->
  In c (list_ascii_of_string s) ->
  digit_val c = None ->
  c <> "_"%char -> c <> "+"%char -> c <> "-"%char ->
  is_space c = false ->
  import_users p = Raise (OtherException "ValueError").
Proof.
  intros Henv Hascii Hin Hdigit Hunder Hplus Hminus Hblank.
  unfold import_users, py_int. rewrite Henv, Hascii. unfold int_of_ascii.
  pose proof (strip_keeps c _ Hin Hblank) as Hkept.
  destruct (strip (list_ascii_of_string s)) as [|c0 l]; [done|].
  cbv zeta.
  assert (Hnum : In c (if Ascii.eqb c0 "-" || Ascii.eqb c0 "+"
                       then l else c0 :: l)).
  { destruct Hkept as [->|Hl].
    - apply Ascii.eqb_neq in Hplus, Hminus. rewrite Hplus, Hminus. by left.
    - destruct (Ascii.eqb c0 "-" || Ascii.eqb c0 "+"); [done|by right]. }
  destruct (parse_digits 0 0 false _) as [[n digits]|] eqn:Hparse; [|done].
  exfalso. apply parse_digits_chars in Hparse.
  rewrite List.Forall_forall in Hparse.
  destruct (Hparse c Hnum) as [[d Hd]|Hu]; [congruence|].
  by apply Ascii.eqb_eq in Hu.
Qed.

(** X4: when [JWT_TOKEN_LIFETIME_MINUTES] is a plain decimal numeral, the
    import succeeds and the lifetime is sixty times the number the numeral
    denotes, hence never negative.  It is a numeral the interpreter does
    not refuse for its length: one of at most 640 digits, or of no more
    digits than [sys.get_int_max_str_digits()] where that is not 0. *)
Theorem lifetime_of_decimal_minutes (p : Process) (ds : list nat) :
  Forall (fun d => (d < 10)%nat) ds ->
  ds <> [] ->
  exceeds_limit (int_max_str_digits p) (length ds) = false ->
  environ p !! "JWT_TOKEN_LIFETIME_MINUTES"
  = Some (string_of_list_ascii (map digit_char ds)) ->
  exists g,
    import_users p = Ok g
    /\ JWT_TOKEN_LIFETIME g
       = fold_left (fun a d => 10 * a + Z.of_nat d) ds 0 * 60
    /\ 0 <= JWT_TOKEN_LIFETIME g.
Proof.
  intros Hds Hne Hlimit Henv. unfold import_users.
  rewrite Henv, (py_int_decimal _ _ ds Hds Hne Hlimit).
  eexists. split; [done|].
  split; [done|]. simpl.
  assert (Hpos : forall l acc, 0 <= acc ->
            0 <= fold_left (fun a d => 10 * a + Z.of_nat d) l acc).
  { induction l as [|d l IH]; intros acc Hacc; [done|].
    simpl. apply IH. lia. }
  specialize (Hpos ds 0). lia.
Qed.

(** ** Looking up user names *)

Section NamesProperties.

Context {W U : Type}.
Variable UUID4 : string -> option U.
Variable find : list U -> list string -> W -> result (list (@NameDoc U)) * W.

(** X13: [get_user_names_by_ids] returns at most 1000 documents.  When it
    returns, every id was well formed, exactly one query was sent, for the
    parsed ids in the order given and the projection [id], [name], and the
    answer is the first 1000 documents of what the collection found. *)
Theorem get_user_names_by_ids_bounded user_ids w docs w' queries :
  get_user_names_by_ids UUID4 find user_ids w = (Ok docs, w', queries) ->
  (length docs <= 1000)%nat
  /\ exists ids found,
       Forall2 (fun s i => UUID4 s = Some i) user_ids ids
       /\ find ids ["id"; "name"] w = (Ok found, w')
       /\ docs = take 1000 found
       /\ queries = [(ids, ["id"; "name"])].
Proof.
  unfold get_user_names_by_ids. intros Hrun.
  destruct (mapM UUID4 user_ids) as [ids|] eqn:Hids; [|done].
  destruct (find ids ["id"; "name"] w) as [[found|e] w1] eqn:Hfind;
    simplify_eq.
  split; [rewrite length_take; lia|].
  exists ids, found. by apply mapM_Some in Hids.
Qed.

(** X14: one badly formed id fails the whole lookup with [ValueError], and
    the collection is not queried at all. *)
Theorem get_user_names_by_ids_malformed user_ids w s :
  s ∈ user_ids ->
  UUID4 s = None ->
  get_user_names_by_ids UUID4 find user_ids w
  = (Raise (OtherException "ValueError"), w, []).
Proof.
  intros Hin Hbad. unfold get_user_names_by_ids.
  assert (Hnone : mapM UUID4 user_ids = None).
  { apply mapM_None, Exists_exists. by exists s. }
  by rewrite Hnone.
Qed.

End NamesProperties.

(** ** Registration, continued *)

(** Unfolds a run of [create] or of the callback in hypothesis [H]. *)
Ltac unfold_run_in H :=
  unfold create, on_after_register_custom, try_except_HTTPException,
    get_archive_ops, bind, call, print, create_task, lift, ret, raise in H;
  simpl in H.

(** All ways of writing a literal list as [pre ++ x :: post]. *)
Ltac split_inv :=
  repeat match goal with
  | H : _ = ?pre ++ _ :: _ |- _ =>
      destruct pre as [|? pre]; simpl in H; simplify_eq
  end.

Section MoreRegistration.

Context {W : Type}.
Implicit Types (self : @UserManager W) (w : W) (log : list Item).

(** X1: a manager built by [init_user_manager] lets a request without
    invite token through to account creation exactly when
    [REGISTRATION_ENABLED] is the string "1": then [super().create] is the
    first call, and with any other setting, or none, the request is turned
    away with "Invite Token Required" before anything is called. *)
Theorem registration_open_iff_enabled (g : Globals) (p : Process)
    (user_db : @BaseUserManager W) (emailsender : @EmailSender W)
    (invs : @InviteOps W) user safe request w :
  truthy (UserCreate.inviteToken user) = false ->
  (environ p !! "REGISTRATION_ENABLED" = Some "1" ->
   exists cres w1 rest,
     super_create user_db (default_name user) safe request w = (cres, w1)
     /\ (create (init_user_manager g p user_db emailsender invs)
                user safe request w).2
        = Call (ESuperCreate (default_name user) safe request cres) :: rest)
  /\ (environ p !! "REGISTRATION_ENABLED" <> Some "1" ->
      create (init_user_manager g p user_db emailsender invs)
             user safe request w
      = (Raise (HTTPException 400 "Invite Token Required"), w, [])).
Proof.
  intros Htok. split; intros Henv.
  - destruct (create (init_user_manager g p user_db emailsender invs)
                user safe request w) as [[r w'] log] eqn:Hrun.
    unfold_run_in Hrun. rewrite Htok in Hrun.
    rewrite bool_decide_eq_true_2 in Hrun by done. simpl in Hrun.
    unfold truthy in Htok.
    paths; simpl; eexists _, _, _;
      (split; [first [eassumption|reflexivity]|reflexivity]).
  - unfold create. simpl. rewrite Htok.
    by rewrite bool_decide_eq_false_2.
Qed.

(** X2: a manager whose archive operations were never wired in
    ([archive_ops] still [None]) registers accounts that ask for no archive
    and carry no token, scheduling their verification.  For a request that
    asks for an archive or carries a token, the account is created all the
    same, and then [create] fails with [AttributeError]: no archive call,
    no invite fulfilment, no verified update and no verification task. *)
Theorem unwired_archive_ops self user safe request w r w' log u :
  archive_ops self = None ->
  create self user safe request w = (r, w', log) ->
  Call (ESuperCreate (default_name user) safe request (Ok u)) ∈ log ->
  if UserCreate.newArchive user || truthy (UserCreate.inviteToken user)
  then r = Raise (OtherException "AttributeError")
       /\ Forall (fun it => is_archive_call it = false) log
       /\ Forall (fun it => after_archive_step it = false) log
  else r = Ok u /\ scheduled log = [TRequestVerify u request].
Proof.
  intros Hnone Hrun Hin. unfold_run_in Hrun. rewrite Hnone in Hrun.
  unfold truthy. paths; elem_inv; simpl; try done.
  all: split; [done|]; split; by repeat constructor.
Qed.

(** X5: the post-registration callback always starts by printing that the
    user has registered.  It never both schedules a verification and marks
    the account verified: with a token nothing is scheduled, and without one
    there is no invite fulfilment and no update.  Without [newArchive] the
    archive is never provisioned, and when it is, that call comes before
    any later step and a failure of it is the end of the log. *)
Theorem post_registration_steps self u user_create request w r w' log :
  on_after_register_custom self u user_create request w = (r, w', log) ->
  (exists rest,
     log = Print (Line ("User " +:+ UserDB.id u +:+ " has registered."))
           :: rest)
  /\ (truthy (UserCreate.inviteToken user_create) = true ->
      scheduled log = [])
  /\ (truthy (UserCreate.inviteToken user_create) = false ->
      Forall (fun it => after_archive_step it = false
                        \/ exists t, it = CreateTask t) log)
  /\ (UserCreate.newArchive user_create = false ->
      forall n st a res, Call (ECreateNewArchive n st a res) ∉ log)
  /\ (forall pre post n st a res,
        log = pre ++ Call (ECreateNewArchive n st a res) :: post ->
        Forall (fun it => after_archive_step it = false) pre
        /\ a = u
        /\ (forall e, res = Raise e -> post = [] /\ r = Raise e)).
Proof.
  intros Hrun. unfold_run_in Hrun. unfold truthy.
  split; [paths; by eexists|].
  split; [paths; by intros|].
  split.
  { paths; intros; try done.
    all: repeat first
           [ apply Forall_nil_2
           | apply Forall_cons_2; [first [by left | by right; eexists]|] ]. }
  split.
  - intros Hnew n st a res Hin. rewrite Hnew in Hrun.
    paths; elem_inv.
  - paths; intros pre post n st a' res Hlog; split_inv.
    all: split; [by repeat constructor|]; split; [done|].
    all: by intros ? ?; simplify_eq.
Qed.

(** X6: an archive name given in the request is used as it is, with
    storage "default", for the account just created. *)
Theorem explicit_archive_name self user safe request w r w' log n st a res :
  truthy (UserCreate.newArchiveName user) = true ->
  create self user safe request w = (r, w', log) ->
  Call (ECreateNewArchive n st a res) ∈ log ->
  UserCreate.newArchiveName user = Some n
  /\ st = "default"
  /\ Call (ESuperCreate (default_name user) safe request (Ok a)) ∈ log.
Proof.
  intros Hname Hrun Hin.
  assert (Hgiven : exists s, UserCreate.newArchiveName user = Some s
                             /\ String.eqb s "" = false).
  { unfold truthy in Hname.
    destruct (UserCreate.newArchiveName user) as [s|]; [|done].
    exists s. by destruct (String.eqb s ""). }
  destruct Hgiven as (s & Hs & Hne).
  unfold_run_in Hrun. rewrite Hs in Hrun. simpl in Hrun.
  rewrite Hne in Hrun.
  paths; elem_inv; (split; [done|]); (split; [done|]); elem_find.
Qed.

(** X7: when [create] returns an account, every step went through:
    registration was open or the request carried a token; a token was
    resolved to an invite by [get_valid_invite]; [super().create] returned
    an account; the archive, if asked for, was provisioned for that
    account; and the returned account is the one [super().create] made --
    as the verified update left it when there was a token, untouched when
    there was none. *)
Theorem create_success_means self user safe request w w' log u :
  create self user safe request w = (Ok u, w', log) ->
  (registration_enabled self = true
   \/ truthy (UserCreate.inviteToken user) = true)
  /\ exists u0,
       Call (ESuperCreate (default_name user) safe request (Ok u0)) ∈ log
       /\ (UserCreate.newArchive user = true ->
           exists n, Call (ECreateNewArchive n "default" u0 (Ok tt)) ∈ log)
       /\ (forall tok,
             UserCreate.inviteToken user = Some tok -> tok <> "" ->
             (exists inv,
                Call (EGetValidInvite tok (default_name user) (Ok (Some inv)))
                ∈ log)
             /\ (exists res, Call (EHandleNewUserInvite tok u0 res) ∈ log)
             /\ Call (EUpdate u0 {[ "is_verified" := PyBool true ]} (Ok u))
                ∈ log)
       /\ (truthy (UserCreate.inviteToken user) = false ->
           u = u0 /\ scheduled log = [TRequestVerify u request]).
Proof.
  intros Hrun. unfold_run_in Hrun. unfold truthy.
  paths.
  all: repeat match goal with x : unit |- _ => destruct x end.
  all: split;
    [first [ by right
           | destruct (registration_enabled self); simpl in *; by left ]|].
  all: eexists; split; [elem_find|].
  all: split; [intros Hnew; first [done | eexists; elem_find]|].
  all: split; [|intros Hfalsy; by simplify_eq/=].
  all: intros tok Htok Hne; simplify_eq.
  all: try match goal with
       | H : String.eqb _ "" = true |- _ => by apply String.eqb_eq in H
       end.
  all: match goal with
       | H : negb (bool_decide (is_Some ?a)) = false |- _ =>
           destruct a as [inv|]; [|done]
       end.
  all: split; [eexists; elem_find|]; split; [eexists; elem_find|elem_find].
Qed.

(** X8: one run of [create] calls each collaborator function at most once,
    and makes at most five calls in all. *)
Theorem create_calls_each_at_most_once self user safe request w r w' log :
  create self user safe request w = (r, w', log) ->
  NoDup (event_kind <$> calls log) /\ (length (calls log) <= 5)%nat.
Proof.
  intros Hrun. unfold_run_in Hrun.
  paths; (split; [|simpl; lia]); simpl;
    apply (bool_decide_unpack _); by vm_compute.
Qed.

(** X9: what [super().create] is handed is the request with its e-mail,
    password, token and archive wishes untouched, and the [safe] flag and
    request object as given; a non-blank name is kept, and as long as the
    e-mail is not blank the name it receives is never blank. *)
Theorem request_handed_to_store self user safe request w r w' log u sf rq res :
  create self user safe request w = (r, w', log) ->
  Call (ESuperCreate u sf rq res) ∈ log ->
  sf = safe /\ rq = request
  /\ UserCreate.email u = UserCreate.email user
  /\ UserCreate.password u = UserCreate.password user
  /\ UserCreate.inviteToken u = UserCreate.inviteToken user
  /\ UserCreate.newArchive u = UserCreate.newArchive user
  /\ UserCreate.newArchiveName u = UserCreate.newArchiveName user
  /\ (truthy (UserCreate.name user) = true ->
      UserCreate.name u = UserCreate.name user)
  /\ (UserCreate.email user <> "" -> truthy (UserCreate.name u) = true).
Proof.
  intros Hrun Hin.
  assert (Hu : u = default_name user /\ sf = safe /\ rq = request).
  { unfold_run_in Hrun. paths; by elem_inv. }
  destruct Hu as (-> & -> & ->). repeat split; try done.
  - unfold truthy, default_name, str_or. simpl.
    destruct (UserCreate.name user) as [s|]; [|done].
    by destruct (String.eqb s "").
  - intros Hmail. apply String.eqb_neq in Hmail.
    unfold truthy, default_name, str_or. simpl.
    destruct (UserCreate.name user) as [s|]; [|by rewrite Hmail].
    destruct (String.eqb s "") eqn:Hs; [by rewrite Hmail|by rewrite Hs].
Qed.

(** X15: wiring the archive operations in changes nothing for a request
    that asks for no archive and carries no token: the run of [create] is
    the same with any archive operations as with none. *)
Theorem wiring_leaves_plain_registration self ops user safe request w :
  UserCreate.newArchive user = false ->
  truthy (UserCreate.inviteToken user) = false ->
  create (set_archive_ops self ops) user safe request w
  = create self user safe request w.
Proof.
  intros Hnew Htok.
  unfold create, on_after_register_custom. simpl.
  rewrite Hnew. unfold truthy in Htok.
  destruct (UserCreate.inviteToken user) as [tok|]; [|done].
  destruct (String.eqb tok ""); [done|discriminate].
Qed.

(** X12: [POST /users/invite] without an account behind the bearer token,
    or with an inactive one, answers 401; the invite operations are not
    called and the world is untouched. *)
Theorem invite_requires_active_account (user_manager : @UserManager W)
    invite resolved w :
  (forall u, resolved = Some u -> UserDB.is_active u = false) ->
  exists detail,
    invite_user user_manager invite resolved w
    = (Raise (HTTPException 401 detail), w, []).
Proof.
  intros Hinactive.
  unfold invite_user, current_active_user, current_user, bind, lift.
  destruct resolved as [u|]; [|by eexists].
  rewrite (Hinactive u eq_refl). by eexists.
Qed.

End MoreRegistration.

(** ** Registration and the event loop *)

Section Served.

Context {W : Type}.
Implicit Types (self : @UserManager W) (w : W) (log : list Item).

(** What [create] leaves for the event loop: the verification of the
    returned account when there was no token, and nothing otherwise. *)
Lemma create_schedules self user safe request w r w1 log :
  create self user safe request w = (r, w1, log) ->
  scheduled log
  = match r with
    | Ok u => if truthy (UserCreate.inviteToken user) then []
              else [TRequestVerify u request]
    | Raise _ => []
    end
  /\ Forall (fun it => is_email_call it = false) log.
Proof.
  intros Hrun. unfold_run_in Hrun. unfold truthy.
  paths; split; by repeat constructor.
Qed.

(** X10: a registration that fails, at whatever step, and a registration
    by invite, successful or not, cause no e-mail traffic at all, neither
    in [create] nor afterwards in the event loop: no verification token is
    issued and the e-mail sender is never called; the event loop has
    nothing to run, so log and world are those of [create]. *)
Theorem no_mail_for_failed_or_invited self user safe request w r w2 slog :
  serve_registration self user safe request w = (r, w2, slog) ->
  (exists e, r = Raise e) \/ truthy (UserCreate.inviteToken user) = true ->
  Forall (fun it => is_email_call it = false) slog
  /\ create self user safe request w = (r, w2, slog).
Proof.
  unfold serve_registration. intros Hserve Hcase.
  destruct (create self user safe request w) as [[r1 w1] l1] eqn:Hrun.
  destruct (create_schedules _ _ _ _ _ _ _ _ Hrun) as [Hsched Hnomail].
  assert (Hnone : scheduled l1 = []).
  { rewrite Hsched. destruct Hcase as [[e He]| ->].
    - destruct (run_tasks self (scheduled l1) w1). by simplify_eq.
    - by destruct r1. }
  rewrite Hnone in Hserve. simpl in Hserve. simplify_eq.
  by rewrite app_nil_r.
Qed.

(** X11: after a successful registration without token the event loop
    issues one verification token, for the account that was returned, and,
    if that succeeds, hands it to the e-mail sender once, addressed to that
    account's e-mail.  If issuing the token fails nothing is sent.  Either
    way the response is the account. *)
Theorem verification_mail_after_registration
    self user safe request w u w2 slog :
  truthy (UserCreate.inviteToken user) = false ->
  serve_registration self user safe request w = (Ok u, w2, slog) ->
  exists clog w1 issued w1',
    create self user safe request w = (Ok u, w1, clog)
    /\ verify_token (base self) u w1 = (issued, w1')
    /\ match issued with
       | Ok token =>
           exists sent,
             send_user_validation (email self) (UserDB.email u) token w1'
             = (sent, w2)
             /\ slog = clog ++ [Call (EVerifyToken u (Ok token));
                                Call (ESendUserValidation (UserDB.email u)
                                        token sent)]
       | Raise e =>
           w2 = w1' /\ slog = clog ++ [Call (EVerifyToken u (Raise e))]
       end.
Proof.
  unfold serve_registration. intros Htok Hserve.
  destruct (create self user safe request w) as [[r1 w1] l1] eqn:Hrun.
  destruct (create_schedules _ _ _ _ _ _ _ _ Hrun) as [Hsched _].
  assert (Hr : r1 = Ok u).
  { destruct (run_tasks self (scheduled l1) w1). by simplify_eq. }
  subst r1. rewrite Htok in Hsched. rewrite Hsched in Hserve.
  unfold run_tasks, run_task, request_verify, on_after_request_verify,
    bind, call in Hserve.
  exists l1, w1.
  destruct (verify_token (base self) u w1) as [[token|e] w1'] eqn:Hissue.
  - destruct (send_user_validation (email self) (UserDB.email u) token w1')
      as [sent w3] eqn:Hsend.
    exists (Ok token), w1'. split; [done|]. split; [done|].
    exists sent. destruct sent; by simplify_eq/=.
  - exists (Raise e), w1'. by simplify_eq/=.
Qed.

End Served.

(** ** The further properties at work in the in-memory world *)

Module MoreScenario.

(** "an hour" is no number of minutes. *)
Lemma import_users_rejects_foreign_character_witness :
  environ Doubles.unreadable_lifetime !! "JWT_TOKEN_LIFETIME_MINUTES"
  = Some "an hour"
  /\ import_users Doubles.unreadable_lifetime
     = Raise (OtherException "ValueError").
Proof.
  split; [reflexivity|].
  apply (import_users_rejects_foreign_character Doubles.unreadable_lifetime
           "an hour" "a"%char); try reflexivity; try discriminate.
  simpl. by left.
Defined.

(** Ninety minutes, written "90". *)
Lemma lifetime_of_decimal_minutes_witness :
  exists g,
    import_users Store.ninety_minutes = Ok g
    /\ JWT_TOKEN_LIFETIME g = 90 * 60
    /\ 0 <= JWT_TOKEN_LIFETIME g.
Proof.
  apply (lifetime_of_decimal_minutes Store.ninety_minutes [9; 0]%nat).
  - repeat constructor.
  - discriminate.
  - reflexivity.
  - reflexivity.
Defined.

(** Two accounts in the store, one of them asked for. *)
Lemma get_user_names_by_ids_bounded_witness :
  let ada := Store.account (Store.request "ada@example.com" None false) in
  let bob := Store.account (Store.request "bob@example.com" None false) in
  let w := Store.set_accounts Store.empty [ada; bob] in
  let run := get_user_names_by_ids Doubles.uuid Doubles.find
               ["id:bob@example.com"] w in
  run.1.1 = Ok [{| doc_id := "id:bob@example.com"; doc_name := Some "" |}]
  /\ (length [{| doc_id := "id:bob@example.com"; doc_name := Some "" |}]
      <= 1000)%nat.
Proof.
  intros ada bob w run.
  assert (Hrun : run = (Ok [{| doc_id := "id:bob@example.com";
                               doc_name := Some "" |}],
                        w, [(["id:bob@example.com"], ["id"; "name"])]))
    by (vm_compute; reflexivity).
  split; [by rewrite Hrun|].
  exact (proj1 (get_user_names_by_ids_bounded Doubles.uuid Doubles.find
                  _ _ _ _ _ Hrun)).
Defined.

(** One id of the two is no identifier. *)
Lemma get_user_names_by_ids_malformed_witness :
  get_user_names_by_ids Doubles.uuid Doubles.find
    ["id:bob@example.com"; "bob"] Store.empty
  = (Raise (OtherException "ValueError"), Store.empty, []).
Proof.
  apply (get_user_names_by_ids_malformed Doubles.uuid Doubles.find
           _ _ "bob").
  - elem_find.
  - reflexivity.
Defined.

(** The same request, with registration open and with it closed. *)
Lemma registration_open_iff_enabled_witness :
  let user := Store.request "a@example.com" None false in
  (exists cres w1 rest,
     super_create Store.user_db (default_name user) true None Store.empty
     = (cres, w1)
     /\ (create (Doubles.unwired Store.open_registration)
                user true None Store.empty).2
        = Call (ESuperCreate (default_name user) true None cres) :: rest)
  /\ create (Doubles.unwired Store.bare) user true None Store.empty
     = (Raise (HTTPException 400 "Invite Token Required"), Store.empty, []).
Proof.
  intros user. split.
  - apply (proj1 (registration_open_iff_enabled Store.globals
                    Store.open_registration Store.user_db Store.emailsender
                    Store.invite_ops user true None Store.empty eq_refl)).
    reflexivity.
  - apply (proj2 (registration_open_iff_enabled Store.globals
                    Store.bare Store.user_db Store.emailsender
                    Store.invite_ops user true None Store.empty eq_refl)).
    discriminate.
Defined.

(** A request for an archive reaches a manager that has no archive
    operations. *)
Lemma unwired_archive_ops_witness :
  let self := Doubles.unwired Store.open_registration in
  let user := Store.request "a@example.com" None true in
  let run := create self user true None Store.empty in
  Call (ESuperCreate (default_name user) true None
          (Ok (Store.account (default_name user)))) ∈ run.2
  /\ run.1.1 = Raise (OtherException "AttributeError")
  /\ Forall (fun it => is_archive_call it = false) run.2
  /\ Forall (fun it => after_archive_step it = false) run.2.
Proof.
  intros self user run.
  assert (Hin : Call (ESuperCreate (default_name user) true None
                        (Ok (Store.account (default_name user)))) ∈ run.2)
    by (vm_compute; elem_find).
  split; [exact Hin|].
  exact (unwired_archive_ops self user true None Store.empty
           run.1.1 run.1.2 run.2 _ eq_refl (run_eta run) Hin).
Defined.

(** The callback for an invited account that also asked for an archive. *)
Lemma post_registration_steps_witness :
  let self := Store.manager Store.bare Store.archive_ops in
  let user := Doubles.named_request "b@example.com" (Some "tok") in
  let u := Store.account user in
  let run := on_after_register_custom self u user None
               (Store.with_invite "tok") in
  (exists rest,
     run.2 = Print (Line "User id:b@example.com has registered.") :: rest)
  /\ scheduled run.2 = []
  /\ Forall (fun it => after_archive_step it = false)
       [Print (Line "User id:b@example.com has registered.");
        Print (Line "Creating new archive for id:b@example.com")].
Proof.
  intros self user u run.
  destruct (post_registration_steps self u user None
              (Store.with_invite "tok") run.1.1 run.1.2 run.2 (run_eta run))
    as (Hfirst & Hinvited & _ & _ & Horder).
  split; [exact Hfirst|]. split; [by apply Hinvited|].
  refine (proj1 (Horder _ _ "Lab" "default" u (Ok tt) _)).
  vm_compute. reflexivity.
Defined.

(** The request names its archive "Lab". *)
Lemma explicit_archive_name_witness :
  let self := Store.manager Store.open_registration Store.archive_ops in
  let user := Doubles.named_request "a@example.com" None in
  let a := Store.account (default_name user) in
  let run := create self user true None Store.empty in
  Call (ECreateNewArchive "Lab" "default" a (Ok tt)) ∈ run.2
  /\ UserCreate.newArchiveName user = Some "Lab"
  /\ "default" = "default"
  /\ Call (ESuperCreate (default_name user) true None (Ok a)) ∈ run.2.
Proof.
  intros self user a run.
  assert (Hin : Call (ECreateNewArchive "Lab" "default" a (Ok tt)) ∈ run.2)
    by (vm_compute; elem_find).
  split; [exact Hin|].
  exact (explicit_archive_name self user true None Store.empty
           run.1.1 run.1.2 run.2 _ _ _ _ eq_refl (run_eta run) Hin).
Defined.

(** A registration by invite that also asks for an archive. *)
Lemma create_success_means_witness :
  let self := Store.manager Store.bare Store.archive_ops in
  let user := Doubles.named_request "b@example.com" (Some "tok") in
  let u0 := Store.account (default_name user) in
  let run := create self user true None (Store.with_invite "tok") in
  run.1.1 = Ok (Store.set_verified u0 true)
  /\ (registration_enabled self = true
      \/ truthy (UserCreate.inviteToken user) = true)
  /\ exists u0',
       Call (ESuperCreate (default_name user) true None (Ok u0')) ∈ run.2
       /\ (exists n, Call (ECreateNewArchive n "default" u0' (Ok tt)) ∈ run.2)
       /\ Call (EUpdate u0' {[ "is_verified" := PyBool true ]}
                  (Ok (Store.set_verified u0 true))) ∈ run.2.
Proof.
  intros self user u0 run.
  assert (Hrun : run = (Ok (Store.set_verified u0 true), run.1.2, run.2))
    by (vm_compute; reflexivity).
  split; [by rewrite Hrun|].
  destruct (create_success_means self user true None
              (Store.with_invite "tok") _ _ _ Hrun)
    as (Hopen & u0' & Hcreated & Harchive & Hinvite & _).
  split; [exact Hopen|]. exists u0'. split; [exact Hcreated|].
  split; [by apply Harchive|].
  by apply (Hinvite "tok").
Defined.

Lemma create_calls_each_at_most_once_witness :
  let self := Store.manager Store.bare Store.archive_ops in
  let user := Doubles.named_request "b@example.com" (Some "tok") in
  let run := create self user true None (Store.with_invite "tok") in
  length (calls run.2) = 5%nat
  /\ NoDup (event_kind <$> calls run.2)
  /\ (length (calls run.2) <= 5)%nat.
Proof.
  intros self user run. split; [vm_compute; reflexivity|].
  exact (create_calls_each_at_most_once self user true None
           (Store.with_invite "tok") run.1.1 run.1.2 run.2 (run_eta run)).
Defined.

Lemma request_handed_to_store_witness :
  let self := Store.manager Store.open_registration Store.archive_ops in
  let user := Store.request "a@example.com" None false in
  let run := create self user true None Store.empty in
  exists u res,
    Call (ESuperCreate u true None res) ∈ run.2
    /\ UserCreate.email u = "a@example.com"
    /\ truthy (UserCreate.name u) = true.
Proof.
  intros self user run.
  exists (default_name user), (Ok (Store.account (default_name user))).
  assert (Hin : Call (ESuperCreate (default_name user) true None
                        (Ok (Store.account (default_name user)))) ∈ run.2)
    by (vm_compute; elem_find).
  split; [exact Hin|].
  destruct (request_handed_to_store self user true None Store.empty
              run.1.1 run.1.2 run.2 _ _ _ _ (run_eta run) Hin)
    as (_ & _ & Hmail & _ & _ & _ & _ & _ & Hname).
  split; [exact Hmail|]. apply Hname. discriminate.
Defined.

Lemma wiring_leaves_plain_registration_witness :
  let user := Store.request "a@example.com" None false in
  create (set_archive_ops (Doubles.unwired Store.open_registration)
                          Store.unreachable_archive_ops)
         user true None Store.empty
  = create (Doubles.unwired Store.open_registration)
           user true None Store.empty.
Proof.
  intros user.
  apply wiring_leaves_plain_registration; reflexivity.
Defined.

(** An inactive account asks to invite someone. *)
Lemma invite_requires_active_account_witness :
  let u := Doubles.inactive
             (Store.account (Store.request "a@example.com" None false)) in
  exists detail,
    invite_user (Store.manager Store.bare Store.archive_ops)
                {| invite_email := "c@example.com" |} (Some u) Store.empty
    = (Raise (HTTPException 401 detail), Store.empty, []).
Proof.
  intros u.
  apply (invite_requires_active_account
           (Store.manager Store.bare Store.archive_ops)).
  intros u' Hu. by simplify_eq.
Defined.

(** A duplicate address: the registration fails and no mail goes out. *)
Lemma no_mail_for_failed_or_invited_witness :
  let self := Store.manager Store.open_registration Store.archive_ops in
  let user := Store.request "a@example.com" None false in
  let w := Store.set_accounts Store.empty [Store.account (default_name user)] in
  let run := serve_registration self user true None w in
  run.1.1 = Raise (OtherException "UserAlreadyExists")
  /\ Forall (fun it => is_email_call it = false) run.2
  /\ Store.outbox run.1.2 = [].
Proof.
  intros self user w run.
  assert (Hr : run.1.1 = Raise (OtherException "UserAlreadyExists"))
    by (vm_compute; reflexivity).
  split; [exact Hr|].
  split; [|vm_compute; reflexivity].
  apply (no_mail_for_failed_or_invited self user true None w
           run.1.1 run.1.2 run.2 (run_eta run)).
  left. by eexists.
Defined.

(** An open registration: one token, one mail, to the new account. *)
Lemma verification_mail_after_registration_witness :
  let self := Store.manager Store.open_registration Store.archive_ops in
  let user := Store.request "a@example.com" None false in
  let u := Store.account (default_name user) in
  let run := serve_registration self user true None Store.empty in
  Store.outbox run.1.2 = [("a@example.com", "email_verify:id:a@example.com")]
  /\ exists clog w1 issued w1',
       create self user true None Store.empty = (Ok u, w1, clog)
       /\ verify_token (base self) u w1 = (issued, w1')
       /\ match issued with
          | Ok token =>
              exists sent,
                send_user_validation (email self) (UserDB.email u) token w1'
                = (sent, run.1.2)
                /\ run.2 = clog ++ [Call (EVerifyToken u (Ok token));
                                    Call (ESendUserValidation (UserDB.email u)
                                            token sent)]
          | Raise e =>
              run.1.2 = w1' /\ run.2 = clog ++ [Call (EVerifyToken u (Raise e))]
          end.
Proof.
  intros self user u run.
  split; [vm_compute; reflexivity|].
  assert (Hrun : run = (Ok u, run.1.2, run.2)) by (vm_compute; reflexivity).
  exact (verification_mail_after_registration self user true None Store.empty
           u run.1.2 run.2 eq_refl Hrun).
Defined.

End MoreScenario.
